(** * dcm4chee_device: the Ansible module that manages DICOM devices

    A shallow embedding of [dcm4chee_device.py] (Python 2) and the
    properties of its three parts: the [Device] value object, the
    [DeviceAPI] HTTP client and the reconciliation in [main].

    The two libraries the module calls, [json] and [urllib2], are
    interfaces here (type classes); the module's own code is translated
    function by function on top of them. *)

From Stdlib Require Import String Ascii ZArith List Bool Lia.
From Stdlib Require Import DecimalString.
From Stdlib Require DecimalPos DecimalFacts.
Import ListNotations.
Local Open Scope string_scope.
Local Open Scope Z_scope.

Set Warnings "-register-all".

(* ===================================================================== *)
(** ** Python values *)
(* ===================================================================== *)

(** The values of Python 2 that the module handles: what [json.loads]
    produces, what [json.dumps] accepts and what [AnsibleModule] hands
    over.

    There are two types of strings. [PStr] is a [str], a string of bytes:
    the string parameters of the module are of this type, and so are the
    literals of the source. [PUnicode] is a [unicode], a string of code
    points, held here as its UTF-8 encoding: the strings that
    [json.loads] returns are of this type.

    A [dict] keeps its items as an association list. Its keys are the
    member names of a JSON object ([unicode], as UTF-8) or the literal
    keys of the source ([str], all ASCII); a [str] key and a [unicode] key
    with the same ASCII text are one key. JSON numbers with a fraction or
    an exponent (Python floats) are outside the model. *)
Inductive pyval : Type :=
| PNone
| PBool (b : bool)
| PInt (z : Z)
| PStr (s : string)
| PUnicode (u : string)
| PList (l : list pyval)
| PDict (d : list (string * pyval)).

(** The exceptions that can leave the module. *)
Inductive exn : Type :=
| HTTPError (code : Z)        (* urllib2.HTTPError, with its status code *)
| URLError                    (* urllib2.URLError: no HTTP status at all *)
| ValueError                  (* json.loads on a text that is not JSON   *)
| KeyError (key : pyval)
| IndexError
| TypeError.

Fixpoint assoc (k : string) (d : list (string * pyval)) : option pyval :=
  match d with
  | [] => None
  | (k', v) :: d' => if String.eqb k k' then Some v else assoc k d'
  end.

(** A byte below 128, and a string of such bytes. *)
Definition ascii_byte (c : ascii) : bool :=
  match c with
  | Ascii _ _ _ _ _ _ _ b7 => negb b7
  end.

Fixpoint is_ascii (s : string) : bool :=
  match s with
  | EmptyString => true
  | String c r => ascii_byte c && is_ascii r
  end.

(** [a == b] on Python values: [bool] is a subclass of [int], lists
    compare element by element, dicts compare item by item whatever the
    order, and values of different kinds are unequal. A [str] against a
    [unicode] is decoded as ASCII first: with a byte from 128 on the
    comparison is false (Python warns and goes on), otherwise the texts
    are compared. *)
Fixpoint py_eq (a b : pyval) {struct a} : bool :=
  match a, b with
  | PNone, PNone => true
  | PBool x, PBool y => Bool.eqb x y
  | PBool x, PInt y => Z.b2z x =? y
  | PInt x, PBool y => x =? Z.b2z y
  | PInt x, PInt y => x =? y
  | PStr x, PStr y => String.eqb x y
  | PUnicode x, PUnicode y => String.eqb x y
  | PStr x, PUnicode y => is_ascii x && String.eqb x y
  | PUnicode x, PStr y => is_ascii y && String.eqb x y
  | PList x, PList y =>
      (fix elements (x y : list pyval) {struct x} : bool :=
         match x, y with
         | [], [] => true
         | v :: x', w :: y' => py_eq v w && elements x' y'
         | _, _ => false
         end) x y
  | PDict x, PDict y =>
      Nat.eqb (length x) (length y) &&
      (fix items (x : list (string * pyval)) {struct x} : bool :=
         match x with
         | [] => true
         | (k, v) :: x' =>
             match assoc k y with
             | Some w => py_eq v w
             | None => false
             end && items x'
         end) x
  | _, _ => false
  end.

(** The characters of a [unicode] held as UTF-8: a character starts at
    every byte that is not a continuation byte (from 128 to 191). *)
Definition continuation (c : ascii) : bool :=
  match c with
  | Ascii _ _ _ _ _ _ b6 b7 => b7 && negb b6
  end.

Fixpoint characters (u : string) : list string :=
  match u with
  | EmptyString => []
  | String c r =>
      let rest := characters r in
      let joined :=
        match r with
        | String c' _ => continuation c'
        | EmptyString => false
        end in
      match rest with
      | g :: gs =>
          if joined then String c g :: gs
          else String c EmptyString :: rest
      | [] => [String c EmptyString]
      end
  end.

(** [o[k]] for the two kinds of subscript the module writes: a string key
    and an integer index. *)
Definition getitem (o k : pyval) : exn + pyval :=
  match o, k with
  | PDict d, PStr key =>
      match assoc key d with
      | Some v => inr v
      | None => inl (KeyError k)
      end
  | PDict d, PUnicode key =>
      match assoc key d with
      | Some v => inr v
      | None => inl (KeyError k)
      end
  | PDict _, _ => inl (KeyError k)       (* JSON objects have string keys only *)
  | PList l, PInt i =>
      let j := if i <? 0 then Z.of_nat (length l) + i else i in
      if j <? 0 then inl IndexError
      else match nth_error l (Z.to_nat j) with
           | Some v => inr v
           | None => inl IndexError
           end
  | PStr s, PInt i =>
      let j := if i <? 0 then Z.of_nat (String.length s) + i else i in
      if j <? 0 then inl IndexError
      else match String.get (Z.to_nat j) s with
           | Some c => inr (PStr (String c EmptyString))
           | None => inl IndexError
           end
  | PUnicode u, PInt i =>
      let l := characters u in
      let j := if i <? 0 then Z.of_nat (length l) + i else i in
      if j <? 0 then inl IndexError
      else match nth_error l (Z.to_nat j) with
           | Some c => inr (PUnicode c)
           | None => inl IndexError
           end
  | _, _ => inl TypeError
  end.

(** Sequencing of computations that may raise. *)
Definition bindE {A B : Type} (c : exn + A) (k : A -> exn + B) : exn + B :=
  match c with
  | inl e => inl e
  | inr a => k a
  end.

Declare Scope exn_scope.
Delimit Scope exn_scope with exn.
Notation "'try!' x ':=' c 'in' k" := (bindE c (fun x => k))
  (at level 10, x name, c at level 100, k at level 200) : exn_scope.

(* ===================================================================== *)
(** ** The libraries the module calls *)
(* ===================================================================== *)

(** [json]: [dumps] writes a value as text, [loads] reads a text back or
    raises. The real [dumps] raises on a [str] that is not UTF-8; the
    strings that [AnsibleModule] hands over are UTF-8, and the interface
    leaves that exception out. *)
Class Json : Type := {
  dumps : pyval -> string;
  loads : string -> exn + pyval
}.

(** What [json.loads] makes of the text that [json.dumps] wrote for a
    value: the same value, with every [str] turned into the [unicode] of
    the same text. *)
Fixpoint decoded (v : pyval) : pyval :=
  match v with
  | PStr s => PUnicode s
  | PList l => PList (map decoded l)
  | PDict d =>
      PDict ((fix items (d : list (string * pyval)) :=
                match d with
                | [] => []
                | (k, v) :: d' => (k, decoded v) :: items d'
                end) d)
  | _ => v
  end.

(** [urllib2.Request], with the header and the [get_method] that
    [DeviceAPI.__request__] sets. *)
Record Request : Type := {
  req_url : string;
  req_data : option string;
  req_headers : list (string * string);
  get_method : string
}.

(** What [urllib2.urlopen] returns. [read] of the source is [body]. *)
Record Response : Type := {
  code : Z;
  body : string
}.

(** The final answer of the remote archive to one request, after
    [urllib2] has followed the redirections it follows by itself: a status
    line with a body, or no HTTP answer at all. *)
Inductive Reply : Type :=
| Answer (status : Z) (content : string)
| NoAnswer.

(** The remote archive: it answers a request from its current state and
    moves to a new one. *)
Class Archive : Type := {
  server : Type;
  respond : Request -> server -> Reply * server
}.

(** [urllib2.urlopen] hands back the answers with a status from 200 to
    299 and raises [HTTPError] with the status for all others. *)
Definition success (status : Z) : bool :=
  (200 <=? status) && (status <? 300).

Definition urlopen_reply (r : Reply) : exn + Response :=
  match r with
  | Answer status content =>
      if success status then inr {| code := status; body := content |}
      else inl (HTTPError status)
  | NoAnswer => inl URLError
  end.

(* ===================================================================== *)
(** ** class Device *)
(* ===================================================================== *)

Module Device.

(** An instance holds its four attributes; [__init__] stores the values
    it is given without looking at them. *)
Record t : Type := __init__ {
  name : pyval;
  host : pyval;
  port : pyval;
  aetitle : pyval
}.

Definition __dict__ (self : t) : pyval :=
  PDict [("name", name self); ("host", host self);
         ("port", port self); ("aetitle", aetitle self)].

(** An instance defines neither [__nonzero__] nor [__len__]: it is true. *)
Definition truth (self : t) : bool := true.

Definition __eq__ (self other : t) : bool :=
  py_eq (__dict__ self) (__dict__ other).

Definition __ne__ (self other : t) : bool :=
  negb (__eq__ self other).

(** The value that [to_json] hands to [json.dumps]. *)
Definition payload (self : t) : pyval :=
  PDict [
    ("dicomDeviceName", name self);
    ("dicomInstalled", PBool true);
    ("dicomNetworkConnection", PList [
       PDict [
         ("cn", PStr "dicom");
         ("dicomHostname", host self);
         ("dicomPort", port self)
       ]
     ]);
    ("dicomNetworkAE", PList [
       PDict [
         ("dicomAETitle", aetitle self);
         ("dicomAssociationInitiator", PBool true);
         ("dicomAssociationAcceptor", PBool true);
         ("dicomNetworkConnectionReference", PList [
            PStr "/dicomNetworkConnection/0"
          ])
       ]
     ])
  ].

(** What [from_json] does with the value that [json.loads] returned: the
    four subscript chains, evaluated in the order of the keyword
    arguments. *)
Definition of_data (data : pyval) : exn + t :=
  (try! name := getitem data (PStr "dicomDeviceName") in
   try! host :=
     (try! c := getitem data (PStr "dicomNetworkConnection") in
      try! c0 := getitem c (PInt 0) in
      getitem c0 (PStr "dicomHostname")) in
   try! port :=
     (try! c := getitem data (PStr "dicomNetworkConnection") in
      try! c0 := getitem c (PInt 0) in
      getitem c0 (PStr "dicomPort")) in
   try! aetitle :=
     (try! a := getitem data (PStr "dicomNetworkAE") in
      try! a0 := getitem a (PInt 0) in
      getitem a0 (PStr "dicomAETitle")) in
   inr (__init__ name host port aetitle))%exn.

Section WithJson.
Context {J : Json}.

Definition from_json (string : string) : exn + t :=
  (try! data := loads string in of_data data)%exn.

Definition to_json (self : t) : string :=
  dumps (payload self).

End WithJson.

End Device.

(* ===================================================================== *)
(** ** Runs: state, exceptions and the requests sent *)
(* ===================================================================== *)

Section Runs.
Context {A : Archive}.

(** The world of one run: the remote archive and the requests sent so
    far, oldest first. The requests stay on record when a run raises. *)
Record world : Type := World {
  archive : server;
  sent : list Request
}.

Definition M (T : Type) : Type := world -> (exn + T) * world.

Definition ret {T : Type} (a : T) : M T := fun w => (inr a, w).

Definition raise {T : Type} (e : exn) : M T := fun w => (inl e, w).

Definition bind {T T' : Type} (c : M T) (k : T -> M T') : M T' :=
  fun w =>
    match c w with
    | (inr a, w') => k a w'
    | (inl e, w') => (inl e, w')
    end.

(** [try: c except HTTPError as error: h error]; any other exception
    passes through. *)
Definition except_HTTPError {T : Type} (c : M T) (h : Z -> M T) : M T :=
  fun w =>
    match c w with
    | (inl (HTTPError code), w') => h code w'
    | r => r
    end.

Definition lift {T : Type} (c : exn + T) : M T := fun w => (c, w).

(** [urllib2.urlopen(request)]: the request goes out, the archive
    answers. *)
Definition urllib2_urlopen (request : Request) : M Response :=
  fun w =>
    let (r, a) := respond request (archive w) in
    (urlopen_reply r, {| archive := a; sent := sent w ++ [request] |}).

End Runs.

Declare Scope run_scope.
Delimit Scope run_scope with run.
Notation "x <- c ;; k" := (bind c (fun x => k))
  (at level 61, c at next level, right associativity) : run_scope.

(* ===================================================================== *)
(** ** class DeviceAPI *)
(* ===================================================================== *)

Module DeviceAPI.

Record t : Type := { url : string }.

Definition __init__ (api_url name : string) : t :=
  {| url := api_url ++ "devices" ++ "/" ++ name |}.

Definition __request__ (self : t) (data : option string) (method : string)
  : Request :=
  {| req_url := url self;
     req_data := data;
     req_headers := [("Content-Type", "application/json")];
     get_method := method |}.

(** [error.code == ignore_error], where [ignore_error] may be [None]. *)
Definition code_is (code : Z) (ignore_error : option Z) : bool :=
  match ignore_error with
  | Some c => code =? c
  | None => false
  end.

Section WithLibraries.
Context {A : Archive} {J : Json}.

Definition __urlopen__ (self : t) (request : Request)
    (ignore_error : option Z) : M (option Response) :=
  except_HTTPError
    (response <- urllib2_urlopen request ;; ret (Some response))%run
    (fun code =>
       if code_is code ignore_error then ret None
       else raise (HTTPError code)).

(** [True if response else False]: a response object is true, [None]
    is false. *)
Definition truth (response : option Response) : bool :=
  match response with
  | Some _ => true
  | None => false
  end.

Definition create (self : t) (device : Device.t) : M bool :=
  (let request := __request__ self (Some (Device.to_json device)) "POST" in
   response <- __urlopen__ self request (Some 409) ;;
   ret (truth response))%run.

Definition read (self : t) : M (option Device.t) :=
  (let request := __request__ self None "GET" in
   response <- __urlopen__ self request (Some 404) ;;
   match response with
   | Some r =>
       device <- lift (Device.from_json (body r)) ;;
       ret (Some device)
   | None => ret None
   end)%run.

Definition update (self : t) (device : Device.t) : M bool :=
  (let request := __request__ self (Some (Device.to_json device)) "PUT" in
   response <- __urlopen__ self request (Some 404) ;;
   ret (truth response))%run.

Definition delete (self : t) : M bool :=
  (let request := __request__ self None "DELETE" in
   response <- __urlopen__ self request (Some 404) ;;
   ret (truth response))%run.

End WithLibraries.

End DeviceAPI.

(* ===================================================================== *)
(** ** main *)
(* ===================================================================== *)

(** [module.params], as [AnsibleModule] hands them over: the strings are
    [str], [port] is an [int]. *)
Record params : Type := {
  api_url : string;
  name : string;
  host : string;
  port : Z;
  aetitle : string;
  state : string
}.

(** The keyword arguments of [module.exit_json]. *)
Record exit_json : Type := {
  exit_name : string;
  exit_state : string;
  changed : bool
}.

Section Main.
Context {A : Archive} {J : Json}.

Definition expected_device (p : params) : Device.t :=
  Device.__init__ (PStr (name p)) (PStr (host p)) (PInt (port p))
                  (PStr (aetitle p)).

Definition main (p : params) : M exit_json :=
  (let api := DeviceAPI.__init__ (api_url p) (name p) in
   let expected_device := expected_device p in
   changed <-
     (if state p =? "present" then
        actual_device <- DeviceAPI.read api ;;
        match actual_device with
        | None => DeviceAPI.create api expected_device
        | Some actual_device =>
            if negb (Device.truth actual_device) then
              DeviceAPI.create api expected_device
            else if Device.__ne__ actual_device expected_device then
              DeviceAPI.update api expected_device
            else
              ret false
        end
      else if state p =? "absent" then
        DeviceAPI.delete api
      else
        ret false)%string ;;
   ret {| exit_name := name p; exit_state := state p; changed := changed |})%run.

End Main.

(* ===================================================================== *)
(** ** A JSON codec, an archive and sample data to run the module on *)
(* ===================================================================== *)

(** A reference implementation of [json] as Python 2.7 has it, for the
    values of the model. [write] is [json.dumps] with its defaults: items
    as ["k": v], [, ] between items, a [str] read as UTF-8, and every
    character outside the printable ASCII range escaped. [read] is
    [json.loads] with its defaults: every string comes back as a
    [unicode], a later member wins over an earlier one with the same
    name, and a control character inside a string is refused. Numbers
    with a fraction or an exponent, [NaN] and [Infinity] are outside the
    model and refused; a [str] that is not UTF-8, on which the real
    [dumps] raises, is written byte by byte. *)
Module RefJson.

(** *** Code points and UTF-8 *)

Definition tail_byte (c : ascii) : option N :=
  let n := N_of_ascii c in
  if ((128 <=? n) && (n <? 192))%N then Some (n - 128)%N else None.

Definition over (least : N) (cp : N) (rest : option (list N))
  : option (list N) :=
  if (cp <? least)%N then None else option_map (cons cp) rest.

Fixpoint utf8_decode (s : string) : option (list N) :=
  match s with
  | EmptyString => Some []
  | String c r =>
      let n := N_of_ascii c in
      if (n <? 128)%N then option_map (cons n) (utf8_decode r)
      else if (n <? 192)%N then None
      else if (n <? 224)%N then
        match r with
        | String c1 r1 =>
            match tail_byte c1 with
            | Some x1 =>
                over 128 ((n - 192) * 64 + x1)%N (utf8_decode r1)
            | None => None
            end
        | EmptyString => None
        end
      else if (n <? 240)%N then
        match r with
        | String c1 (String c2 r2) =>
            match tail_byte c1, tail_byte c2 with
            | Some x1, Some x2 =>
                over 2048 ((n - 224) * 4096 + x1 * 64 + x2)%N
                     (utf8_decode r2)
            | _, _ => None
            end
        | _ => None
        end
      else if (n <? 248)%N then
        match r with
        | String c1 (String c2 (String c3 r3)) =>
            match tail_byte c1, tail_byte c2, tail_byte c3 with
            | Some x1, Some x2, Some x3 =>
                over 65536
                     ((n - 240) * 262144 + x1 * 4096 + x2 * 64 + x3)%N
                     (utf8_decode r3)
            | _, _, _ => None
            end
        | _ => None
        end
      else None
  end.

Definition byte (n : N) : ascii := ascii_of_N n.

Definition utf8_encode (cp : N) : string :=
  (if cp <? 128 then String (byte cp) EmptyString
   else if cp <? 2048 then
     String (byte (192 + cp / 64))
       (String (byte (128 + cp mod 64)) EmptyString)
   else if cp <? 65536 then
     String (byte (224 + cp / 4096))
       (String (byte (128 + (cp / 64) mod 64))
          (String (byte (128 + cp mod 64)) EmptyString))
   else
     String (byte (240 + cp / 262144))
       (String (byte (128 + (cp / 4096) mod 64))
          (String (byte (128 + (cp / 64) mod 64))
             (String (byte (128 + cp mod 64)) EmptyString))))%N.

Definition hex_digit (n : N) : ascii :=
  (if n <? 10 then byte (48 + n) else byte (87 + n))%N.

Definition hex4 (n : N) : string :=
  (String (hex_digit ((n / 4096) mod 16))
     (String (hex_digit ((n / 256) mod 16))
        (String (hex_digit ((n / 16) mod 16))
           (String (hex_digit (n mod 16)) EmptyString))))%N.

Definition unhex (c : ascii) : option N :=
  let n := N_of_ascii c in
  (if (48 <=? n) && (n <=? 57) then Some (n - 48)
   else if (97 <=? n) && (n <=? 102) then Some (n - 87)
   else if (65 <=? n) && (n <=? 70) then Some (n - 55)
   else None)%N.

Definition read_hex4 (s : string) : option (N * string) :=
  match s with
  | String a (String b (String c (String d r))) =>
      match unhex a, unhex b, unhex c, unhex d with
      | Some x, Some y, Some z, Some t =>
          Some (x * 4096 + y * 256 + z * 16 + t, r)%N
      | _, _, _, _ => None
      end
  | _ => None
  end.

(** *** Writing *)

Definition write_point (cp : N) : string :=
  (if cp =? 34 then String "\" (String "034" EmptyString)
   else if cp =? 92 then String "\" (String "\" EmptyString)
   else if cp =? 10 then String "\" (String "n" EmptyString)
   else if cp =? 13 then String "\" (String "r" EmptyString)
   else if cp =? 9 then String "\" (String "t" EmptyString)
   else if cp =? 8 then String "\" (String "b" EmptyString)
   else if cp =? 12 then String "\" (String "f" EmptyString)
   else if (32 <=? cp) && (cp <=? 126) then String (byte cp) EmptyString
   else if cp <? 65536 then String "\" (String "u" (hex4 cp))
   else
     let v := cp - 65536 in
     String "\" (String "u" (hex4 (55296 + v / 1024))) ++
     String "\" (String "u" (hex4 (56320 + v mod 1024))))%N.

Definition points (s : string) : list N :=
  match utf8_decode s with
  | Some l => l
  | None => map N_of_ascii (list_ascii_of_string s)
  end.

Fixpoint escaped (l : list N) : string :=
  match l with
  | [] => EmptyString
  | cp :: l' => write_point cp ++ escaped l'
  end.

Definition write_str (s : string) : string :=
  String "034" (escaped (points s) ++ String "034" EmptyString).

Definition write_int (z : Z) : string :=
  DecimalString.NilZero.string_of_int (Z.to_int z).

Fixpoint write (v : pyval) : string :=
  match v with
  | PNone => "null"
  | PBool true => "true"
  | PBool false => "false"
  | PInt z => write_int z
  | PStr s => write_str s
  | PUnicode u => write_str u
  | PList l =>
      "[" ++
      (fix elements (l : list pyval) : string :=
         match l with
         | [] => EmptyString
         | v :: l' =>
             write v ++
             match l' with [] => EmptyString | _ => ", " ++ elements l' end
         end) l ++ "]"
  | PDict d =>
      "{" ++
      (fix items (d : list (string * pyval)) : string :=
         match d with
         | [] => EmptyString
         | (k, v) :: d' =>
             write_str k ++ ": " ++ write v ++
             match d' with [] => EmptyString | _ => ", " ++ items d' end
         end) d ++ "}"
  end.

(** *** Reading *)

Definition is_space (c : ascii) : bool :=
  Ascii.eqb c " "%char || Ascii.eqb c "009"%char ||
  Ascii.eqb c "010"%char || Ascii.eqb c "013"%char.

Fixpoint skip (s : string) : string :=
  match s with
  | String c r => if is_space c then skip r else s
  | EmptyString => s
  end.

Definition digit (c : ascii) : option Z :=
  let n := Z.of_N (N_of_ascii c) in
  if (48 <=? n) && (n <=? 57) then Some (n - 48) else None.

Fixpoint read_digits (s : string) (acc : Z) : Z * string :=
  match s with
  | String c r =>
      match digit c with
      | Some d => read_digits r (10 * acc + d)
      | None => (acc, s)
      end
  | EmptyString => (acc, s)
  end.

(** An integer without its sign: [0] alone or digits that do not start
    with [0]; what follows must not make it a float. *)
Definition read_natural (s : string) : option (Z * string) :=
  match s with
  | String c r =>
      match digit c with
      | Some d =>
          let (n, rest) := if d =? 0 then (0, r) else read_digits s 0 in
          match rest with
          | String c' _ =>
              if Ascii.eqb c' "."%char || Ascii.eqb c' "e"%char
                 || Ascii.eqb c' "E"%char
              then None else Some (n, rest)
          | EmptyString => Some (n, rest)
          end
      | None => None
      end
  | EmptyString => None
  end.

(** The characters of a string, after its opening quote, as UTF-8. *)
Fixpoint read_chars (fuel : nat) (s : string) : option (string * string) :=
  match fuel with
  | O => None
  | S fuel' =>
      let more (x rest : string) :=
        match read_chars fuel' rest with
        | Some (t, rest') => Some (x ++ t, rest')
        | None => None
        end in
      match s with
      | EmptyString => None
      | String c r =>
          if Ascii.eqb c "034"%char then Some (EmptyString, r)
          else if Ascii.eqb c "\"%char then
            match r with
            | String e r' =>
                if Ascii.eqb e "u"%char then
                  match read_hex4 r' with
                  | Some (n, r2) =>
                      let single := more (utf8_encode n) r2 in
                      if ((55296 <=? n) && (n <? 56320))%N then
                        match r2 with
                        | String b (String u r3) =>
                            if Ascii.eqb b "\"%char && Ascii.eqb u "u"%char
                            then
                              match read_hex4 r3 with
                              | Some (m, r4) =>
                                  if ((56320 <=? m) && (m <? 57344))%N then
                                    more (utf8_encode
                                            (65536 + (n - 55296) * 1024
                                             + (m - 56320))%N) r4
                                  else single
                              | None => single
                              end
                            else single
                        | _ => single
                        end
                      else single
                  | None => None
                  end
                else if Ascii.eqb e "n"%char then
                  more (String "010" EmptyString) r'
                else if Ascii.eqb e "t"%char then
                  more (String "009" EmptyString) r'
                else if Ascii.eqb e "r"%char then
                  more (String "013" EmptyString) r'
                else if Ascii.eqb e "b"%char then
                  more (String "008" EmptyString) r'
                else if Ascii.eqb e "f"%char then
                  more (String "012" EmptyString) r'
                else if Ascii.eqb e "034"%char || Ascii.eqb e "\"%char
                        || Ascii.eqb e "/"%char then
                  more (String e EmptyString) r'
                else None
            | EmptyString => None
            end
          else if (N_of_ascii c <? 32)%N then None
          else more (String c EmptyString) r
      end
  end.

Definition read_string (s : string) : option (string * string) :=
  read_chars (S (String.length s)) s.

(** What is left of [s] after the text [p], when [s] starts with it. *)
Fixpoint starts (p s : string) : option string :=
  match p with
  | EmptyString => Some s
  | String a p' =>
      match s with
      | String b s' => if Ascii.eqb a b then starts p' s' else None
      | EmptyString => None
      end
  end.

Fixpoint read_value (fuel : nat) (s : string) : option (pyval * string) :=
  match fuel with
  | O => None
  | S fuel' =>
      match skip s with
      | EmptyString => None
      | String c r =>
          if Ascii.eqb c "n"%char then
            option_map (pair PNone) (starts "ull" r)
          else if Ascii.eqb c "t"%char then
            option_map (pair (PBool true)) (starts "rue" r)
          else if Ascii.eqb c "f"%char then
            option_map (pair (PBool false)) (starts "alse" r)
          else if Ascii.eqb c "034"%char then
            match read_string r with
            | Some (t, rest) => Some (PUnicode t, rest)
            | None => None
            end
          else if Ascii.eqb c "-"%char then
            match read_natural r with
            | Some (n, rest) => Some (PInt (- n), rest)
            | None => None
            end
          else if Ascii.eqb c "["%char then
            match skip r with
            | String "]"%char rest => Some (PList [], rest)
            | _ =>
                match read_elements fuel' r with
                | Some (l, rest) => Some (PList l, rest)
                | None => None
                end
            end
          else if Ascii.eqb c "{"%char then
            match skip r with
            | String "}"%char rest => Some (PDict [], rest)
            | _ =>
                match read_items fuel' r with
                | Some (d, rest) => Some (PDict d, rest)
                | None => None
                end
            end
          else
            match read_natural (String c r) with
            | Some (n, rest) => Some (PInt n, rest)
            | None => None
            end
      end
  end
with read_elements (fuel : nat) (s : string)
  : option (list pyval * string) :=
  match fuel with
  | O => None
  | S fuel' =>
      match read_value fuel' s with
      | Some (v, r) =>
          match skip r with
          | String c rest =>
              if Ascii.eqb c "]"%char then Some ([v], rest)
              else if Ascii.eqb c ","%char then
                match read_elements fuel' rest with
                | Some (l, rest') => Some (v :: l, rest')
                | None => None
                end
              else None
          | EmptyString => None
          end
      | None => None
      end
  end
with read_items (fuel : nat) (s : string)
  : option (list (string * pyval) * string) :=
  match fuel with
  | O => None
  | S fuel' =>
      match skip s with
      | String q r =>
          if Ascii.eqb q "034"%char then
            match read_string r with
            | Some (k, r1) =>
                match skip r1 with
                | String colon r2 =>
                    if Ascii.eqb colon ":"%char then
                      match read_value fuel' r2 with
                      | Some (v, r3) =>
                          match skip r3 with
                          | String c rest =>
                              if Ascii.eqb c "}"%char then
                                Some ([(k, v)], rest)
                              else if Ascii.eqb c ","%char then
                                match read_items fuel' rest with
                                | Some (d, rest') =>
                                    Some ((k, v) :: d, rest')
                                | None => None
                                end
                              else None
                          | EmptyString => None
                          end
                      | None => None
                      end
                    else None
                | EmptyString => None
                end
            | None => None
            end
          else None
      | EmptyString => None
      end
  end.

(** A later item wins over an earlier one with the same key, as in a
    Python dict. *)
Fixpoint last_wins (d : list (string * pyval)) : list (string * pyval) :=
  match d with
  | [] => []
  | (k, v) :: d' =>
      match assoc k d' with
      | Some _ => last_wins d'
      | None => (k, v) :: last_wins d'
      end
  end.

Fixpoint normal (v : pyval) : pyval :=
  match v with
  | PList l => PList (map normal l)
  | PDict d =>
      PDict (last_wins
        ((fix items (d : list (string * pyval)) :=
            match d with
            | [] => []
            | (k, v) :: d' => (k, normal v) :: items d'
            end) d))
  | _ => v
  end.

Definition read (s : string) : exn + pyval :=
  match read_value (2 * String.length s + 2) s with
  | Some (v, rest) =>
      match skip rest with
      | EmptyString => inr (normal v)
      | _ => inl ValueError
      end
  | None => inl ValueError
  end.

Definition json : Json := {| dumps := write; loads := read |}.

(** *** Vocabulary of the facts about the codec *)

(** The code points of an ASCII text. *)
Definition codes (s : string) : list N :=
  map N_of_ascii (list_ascii_of_string s).

(** What may follow a number: nothing, or a character that is not a
    digit and does not start a fraction or an exponent. *)
Definition ends_number (rest : string) : Prop :=
  match rest with
  | String c _ =>
      digit c = None /\
      (Ascii.eqb c "."%char || Ascii.eqb c "e"%char || Ascii.eqb c "E"%char)
      = false
  | EmptyString => True
  end.

(** What may follow a value inside an array or an object. *)
Definition closing (c : ascii) : bool :=
  Ascii.eqb c ","%char || Ascii.eqb c "}"%char || Ascii.eqb c "]"%char.

End RefJson.

(** An archive that plays a script: each request gets the next reply of
    the list, and no answer once the list is used up. *)
Definition scripted : Archive :=
  {| server := list Reply;
     respond := fun _ script =>
       match script with
       | r :: script' => (r, script')
       | [] => (NoAnswer, [])
       end |}.

(** The start of a run against [scripted]: nothing sent yet. *)
Definition start (script : list Reply) : world (A := scripted) :=
  @World scripted script [].

(** The first device of the module's [EXAMPLES], and answers of an
    archive about it. *)
Module Sample.

Definition wanted : params :=
  {| api_url := "http://1.2.3.4:8080/dcm4chee-arc/";
     name := "workstation23";
     host := "192.168.0.100";
     port := 11112;
     aetitle := "HELLOWORLD";
     state := "present" |}.

Definition unwanted : params :=
  {| api_url := "http://1.2.3.4:8080/dcm4chee-arc/";
     name := "workstation23";
     host := "192.168.0.100";
     port := 11112;
     aetitle := "HELLOWORLD";
     state := "absent" |}.

(** The desired device, with the [str] values of the parameters. *)
Definition device : Device.t := expected_device wanted.

(** The same device as [from_json] returns it, with [unicode] values. *)
Definition stored : Device.t :=
  Device.__init__ (PUnicode "workstation23") (PUnicode "192.168.0.100")
                  (PInt 11112) (PUnicode "HELLOWORLD").

Definition api : DeviceAPI.t :=
  DeviceAPI.__init__ (api_url wanted) (name wanted).

(** The device as the module itself writes it. *)
Definition document : string := RefJson.write (Device.payload device).

(** The same four values as the archive may hold them: members in
    another order, other flags, a second connection and a second
    application entity. *)
Definition verbose : pyval :=
  PDict [
    ("dicomNetworkAE", PList [
       PDict [("dicomAssociationAcceptor", PBool false);
              ("dicomAETitle", PUnicode "HELLOWORLD");
              ("dicomAssociationInitiator", PBool false)];
       PDict [("dicomAETitle", PUnicode "CHUNKYBACON")]
     ]);
    ("dicomInstalled", PBool false);
    ("dicomDeviceName", PUnicode "workstation23");
    ("dicomNetworkConnection", PList [
       PDict [("dicomPort", PInt 11112);
              ("dicomHostname", PUnicode "192.168.0.100")];
       PDict [("dicomPort", PInt 104);
              ("dicomHostname", PUnicode "192.168.0.200")]
     ])
  ].

(** The device on another port, as read and as text. *)
Definition elsewhere : Device.t :=
  Device.__init__ (PUnicode "workstation23") (PUnicode "192.168.0.100")
                  (PInt 104) (PUnicode "HELLOWORLD").

Definition moved : string := RefJson.write (Device.payload elsewhere).

(** A device without any connection. *)
Definition unconnected : pyval :=
  PDict [
    ("dicomDeviceName", PUnicode "workstation23");
    ("dicomInstalled", PBool true);
    ("dicomNetworkConnection", PList []);
    ("dicomNetworkAE",
     PList [PDict [("dicomAETitle", PUnicode "HELLOWORLD")]])
  ].

(** An answer with two defects: no device name and no connection. *)
Definition nameless : pyval :=
  PDict [
    ("dicomNetworkConnection", PList []);
    ("dicomNetworkAE",
     PList [PDict [("dicomAETitle", PUnicode "HELLOWORLD")]])
  ].

(** The device with its port written as a JSON string. *)
Definition quoted_port : pyval :=
  decoded (Device.payload
    (Device.__init__ (PStr "workstation23") (PStr "192.168.0.100")
                     (PStr "11112") (PStr "HELLOWORLD"))).

(** A device whose name has a character outside ASCII: B, j, o with
    diaeresis (the two bytes 195 and 182 in UTF-8), r, n. *)
Definition umlaut : params :=
  {| api_url := "http://1.2.3.4:8080/dcm4chee-arc/";
     name := "Bj" ++ String "195" (String "182" "rn");
     host := "192.168.0.100";
     port := 11112;
     aetitle := "HELLOWORLD";
     state := "present" |}.

Definition GET : Request := DeviceAPI.__request__ api None "GET".

Definition POST : Request :=
  DeviceAPI.__request__ api (Some document) "POST".

Definition PUT : Request :=
  DeviceAPI.__request__ api (Some document) "PUT".

Definition DELETE : Request := DeviceAPI.__request__ api None "DELETE".

(** The world after a run against [scripted]. *)
Definition finish (script : list Reply) (requests : list Request)
  : world (A := scripted) :=
  @World scripted script requests.

End Sample.

(* ===================================================================== *)
(** ** Vocabulary of the properties *)
(* ===================================================================== *)

(** Devices whose attributes have the types that [main] gives them: three
    strings and an integer. *)
Definition typed (d : Device.t) : Prop :=
  exists n h p a, d = Device.__init__ (PStr n) (PStr h) (PInt p) (PStr a).

(** A well-formed response of the archive carrying the four values: an
    object with a device name, a connection array whose first entry is an
    object with a hostname and a port, and an application-entity array
    whose first entry is an object with an AE title. Nothing is asked of
    the other members or of the entries after the first. *)
Definition well_formed (data n h p t : pyval) : Prop :=
  exists d c cs e es,
    data = PDict d /\
    assoc "dicomDeviceName" d = Some n /\
    assoc "dicomNetworkConnection" d = Some (PList (PDict c :: cs)) /\
    assoc "dicomHostname" c = Some h /\
    assoc "dicomPort" c = Some p /\
    assoc "dicomNetworkAE" d = Some (PList (PDict e :: es)) /\
    assoc "dicomAETitle" e = Some t.

(** A response object in which something that the parse needs is not
    there: a member of the object, an entry of one of the two arrays, or
    a member of a first entry. *)
Inductive incomplete : pyval -> Prop :=
| missing_member d k :
    In k ["dicomDeviceName"; "dicomNetworkConnection"; "dicomNetworkAE"] ->
    assoc k d = None ->
    incomplete (PDict d)
| empty_connections d :
    assoc "dicomNetworkConnection" d = Some (PList []) ->
    incomplete (PDict d)
| empty_entities d :
    assoc "dicomNetworkAE" d = Some (PList []) ->
    incomplete (PDict d)
| missing_in_connection d c cs k :
    assoc "dicomNetworkConnection" d = Some (PList (PDict c :: cs)) ->
    In k ["dicomHostname"; "dicomPort"] ->
    assoc k c = None ->
    incomplete (PDict d)
| missing_in_entity d e es :
    assoc "dicomNetworkAE" d = Some (PList (PDict e :: es)) ->
    assoc "dicomAETitle" e = None ->
    incomplete (PDict d).

(** The errors of a lookup in a value of the wrong shape. *)
Definition shape_error (e : exn) : bool :=
  match e with
  | KeyError _ | IndexError | TypeError => true
  | _ => false
  end.

(** What a run reports when it ends with [changed = c]. *)
Definition report (p : params) (c : bool) : exit_json :=
  {| exit_name := name p; exit_state := state p; changed := c |}.

(** The world once [request] has gone out and the archive has moved to
    [a]. *)
Definition after {A : Archive} (w : world) (request : Request) (a : server)
  : world :=
  {| archive := a; sent := sent w ++ [request] |}.

Definition is_GET (r : Request) : bool := (get_method r =? "GET")%string.

Definition is_write (r : Request) : bool :=
  ((get_method r =? "POST") || (get_method r =? "PUT") ||
   (get_method r =? "DELETE"))%string.

Definition count (f : Request -> bool) (l : list Request) : nat :=
  length (filter f l).

(** A string of either type, and a value that can equal an [int]: an
    [int] or a [bool] ([True] is 1 and [False] is 0). *)
Definition is_str (v : pyval) : bool :=
  match v with
  | PStr _ | PUnicode _ => true
  | _ => false
  end.

Definition is_int_or_bool (v : pyval) : bool :=
  match v with
  | PInt _ | PBool _ => true
  | _ => false
  end.

(** A device as it comes back from the archive: every [str] attribute
    has become a [unicode]. *)
Definition reread (d : Device.t) : Device.t :=
  Device.__init__ (decoded (Device.name d)) (decoded (Device.host d))
                  (decoded (Device.port d)) (decoded (Device.aetitle d)).

(** The attributes that still equal themselves once they have become
    [unicode]: [None], a [bool], an [int], a [unicode], and a [str] of
    ASCII bytes. *)
Definition plain (v : pyval) : bool :=
  match v with
  | PNone | PBool _ | PInt _ | PUnicode _ => true
  | PStr s => is_ascii s
  | _ => false
  end.

(** A [str] with a byte from 128 on. *)
Definition beyond_ascii (v : pyval) : bool :=
  match v with
  | PStr s => negb (is_ascii s)
  | _ => false
  end.

(** The string parameters of a run are all ASCII. *)
Definition ascii_params (p : params) : bool :=
  is_ascii (name p) && is_ascii (host p) && is_ascii (aetitle p).

(** The resource of a run and the four requests that [main] can build
    for it. *)
Definition resource (p : params) : string :=
  api_url p ++ "devices/" ++ name p.

Definition request_of {J : Json} (p : params) (method : string) : Request :=
  let api := DeviceAPI.__init__ (api_url p) (name p) in
  if ((method =? "POST") || (method =? "PUT"))%string
  then DeviceAPI.__request__ api
         (Some (Device.to_json (expected_device p))) method
  else DeviceAPI.__request__ api None method.

(* ===================================================================== *)
(** * The reference codec reads back what it writes *)
(* ===================================================================== *)

(** The payload of a device with ASCII strings goes through [write] and
    [read] unharmed, its strings coming back as [unicode]: the reference
    codec has the behaviour that the properties below assume of [json]. *)
Module RefJsonFacts.

Import RefJson.

Lemma ascii_byte_code (c : ascii) :
  ascii_byte c = true -> (N_of_ascii c <? 128)%N = true.
Proof.
  destruct c as [b0 b1 b2 b3 b4 b5 b6 b7]. cbn [ascii_byte].
  intros H. apply negb_true_iff in H. subst b7.
  destruct b0, b1, b2, b3, b4, b5, b6; reflexivity.
Qed.

Lemma points_ascii (s : string) :
  is_ascii s = true -> points s = map N_of_ascii (list_ascii_of_string s).
Proof.
  intros H. unfold points.
  assert (E : utf8_decode s = Some (map N_of_ascii (list_ascii_of_string s))).
  { induction s as [| c r IH]; [reflexivity |].
    cbn [is_ascii] in H. apply andb_true_iff in H as [Hc Hr].
    cbn [utf8_decode]. rewrite (ascii_byte_code c Hc), (IH Hr). reflexivity. }
  rewrite E. reflexivity.
Qed.

Lemma read_chars_point (c : ascii) (fuel : nat) (tl : string) :
  ascii_byte c = true ->
  read_chars (S fuel) (write_point (N_of_ascii c) ++ tl) =
  match read_chars fuel tl with
  | Some (t, rest) => Some (String c t, rest)
  | None => None
  end.
Proof.
  destruct c as [b0 b1 b2 b3 b4 b5 b6 b7]. cbn [ascii_byte].
  intros H. apply negb_true_iff in H. subst b7.
  destruct b0, b1, b2, b3, b4, b5, b6;
    cbn; destruct (read_chars fuel tl) as [[t rest] |]; reflexivity.
Qed.

Lemma append_assoc' (a b c : string) : (a ++ b) ++ c = a ++ (b ++ c).
Proof. induction a as [| x a IH]; cbn; [reflexivity | rewrite IH; reflexivity]. Qed.

Lemma length_append' (a b : string) :
  String.length (a ++ b) = (String.length a + String.length b)%nat.
Proof. induction a as [| x a IH]; cbn; [reflexivity | rewrite IH; reflexivity]. Qed.

Lemma read_chars_escaped (s : string) :
  is_ascii s = true ->
  forall fuel rest, (String.length s < fuel)%nat ->
  read_chars fuel (escaped (codes s) ++ String "034" rest) = Some (s, rest).
Proof.
  induction s as [| c r IH]; intros H fuel rest Hf.
  - destruct fuel; [inversion Hf | reflexivity].
  - cbn [is_ascii] in H. apply andb_true_iff in H as [Hc Hr].
    destruct fuel; [inversion Hf |].
    cbn [codes list_ascii_of_string map escaped]. rewrite append_assoc'.
    rewrite (read_chars_point c fuel _ Hc).
    fold (codes r). rewrite (IH Hr fuel rest); [reflexivity |].
    cbn [String.length] in Hf. lia.
Qed.

Lemma write_point_length (c : ascii) :
  ascii_byte c = true -> (1 <= String.length (write_point (N_of_ascii c)))%nat.
Proof.
  destruct c as [b0 b1 b2 b3 b4 b5 b6 b7]. cbn [ascii_byte].
  intros H. apply negb_true_iff in H. subst b7.
  destruct b0, b1, b2, b3, b4, b5, b6; cbn; lia.
Qed.

Lemma escaped_length (s : string) :
  is_ascii s = true ->
  (String.length s <= String.length (escaped (codes s)))%nat.
Proof.
  induction s as [| c r IH]; intros H; [cbn; lia |].
  cbn [is_ascii] in H. apply andb_true_iff in H as [Hc Hr].
  cbn [codes list_ascii_of_string map escaped String.length].
  rewrite length_append'. fold (codes r).
  pose proof (write_point_length c Hc). specialize (IH Hr). lia.
Qed.

(** A string read back, after its opening quote. *)
Lemma read_string_written (s rest : string) :
  is_ascii s = true ->
  read_string (escaped (points s) ++ String "034" rest) = Some (s, rest).
Proof.
  intros H. rewrite (points_ascii s H). fold (codes s).
  unfold read_string. apply (read_chars_escaped s H).
  rewrite length_append'. pose proof (escaped_length s H). cbn. lia.
Qed.

(** *** Integers *)

Ltac eval_digit :=
  match goal with
  | |- context [digit ?c] =>
      let v := eval vm_compute in (digit c) in change (digit c) with v
  end.

Lemma read_digits_uint (d : Decimal.uint) (acc : positive) (rest : string) :
  ends_number rest ->
  read_digits (NilEmpty.string_of_uint d ++ rest) (Z.pos acc) =
  (Z.pos (Pos.of_uint_acc d acc), rest).
Proof.
  intros Hr. revert acc.
  induction d; intros acc; cbn [NilEmpty.string_of_uint Pos.of_uint_acc];
    [destruct rest as [| c r]; [reflexivity |];
     cbn [append read_digits]; destruct Hr as [Hd _]; rewrite Hd;
     reflexivity | ..];
    cbn [append read_digits]; eval_digit; cbv iota;
    match goal with
    | |- read_digits _ ?z = (Z.pos (Pos.of_uint_acc _ ?p), _) =>
        replace z with (Z.pos p) by lia; apply IHd
    end.
Qed.

Lemma to_uint_normal (p : positive) :
  Decimal.unorm (Pos.to_uint p) = Pos.to_uint p.
Proof.
  rewrite <- (DecimalPos.Unsigned.to_of (Pos.to_uint p)).
  rewrite DecimalPos.Unsigned.of_to. reflexivity.
Qed.

Lemma to_uint_not_D0 (p : positive) (l : Decimal.uint) :
  Pos.to_uint p <> Decimal.D0 l.
Proof.
  intros E. pose proof (to_uint_normal p) as Hn. rewrite E in Hn.
  unfold Decimal.unorm in Hn. cbn [Decimal.nzhead] in Hn.
  pose proof (DecimalFacts.nb_digits_nzhead l) as Hl.
  destruct (Decimal.nzhead l) eqn:Hz.
  - injection Hn as <-. apply (DecimalPos.Unsigned.to_uint_nonzero p).
    exact E.
  - rewrite Hn in Hl. cbn in Hl. lia.
  - discriminate Hn. - discriminate Hn. - discriminate Hn.
  - discriminate Hn. - discriminate Hn. - discriminate Hn.
  - discriminate Hn. - discriminate Hn. - discriminate Hn.
Qed.

Lemma read_natural_pos (p : positive) (rest : string) :
  ends_number rest ->
  read_natural (NilZero.string_of_uint (Pos.to_uint p) ++ rest)
  = Some (Z.pos p, rest).
Proof.
  intros Hr.
  pose proof (DecimalPos.Unsigned.of_to p) as Hv.
  pose proof (to_uint_not_D0 p) as H0.
  pose proof (DecimalPos.Unsigned.to_uint_nonnil p) as Hnil.
  assert (Hend : forall n : Z,
            match rest with
            | String c' _ =>
                if Ascii.eqb c' "."%char || Ascii.eqb c' "e"%char
                   || Ascii.eqb c' "E"%char
                then None else Some (n, rest)
            | EmptyString => Some (n, rest)
            end = Some (n, rest)).
  { intros n. destruct rest as [| c r]; [reflexivity |].
    destruct Hr as [_ Hr]. rewrite Hr. reflexivity. }
  destruct (Pos.to_uint p) as [| l | l | l | l | l | l | l | l | l | l];
    [contradiction | exfalso; exact (H0 l eq_refl) | ..];
    cbn [NilZero.string_of_uint NilEmpty.string_of_uint append read_natural];
    eval_digit; cbv iota;
    match goal with
    | |- context [?k =? 0] => change (k =? 0) with false
    end; cbv iota;
    cbn [read_digits]; eval_digit; cbv iota;
    match goal with
    | |- context [read_digits _ ?z] =>
        let q := eval vm_compute in (Z.to_pos z) in
        change z with (Z.pos q)
    end;
    rewrite (read_digits_uint _ _ _ Hr);
    cbn [Pos.of_uint] in Hv; injection Hv as ->; apply Hend.
Qed.

Lemma read_natural_zero (rest : string) :
  ends_number rest -> read_natural (String "0" rest) = Some (0, rest).
Proof.
  intros Hr. cbn [read_natural]. eval_digit. cbv iota.
  change (0 =? 0) with true. cbv iota.
  destruct rest as [| c r]; [reflexivity |].
  destruct Hr as [_ Hr]. rewrite Hr. reflexivity.
Qed.

Lemma read_value_string (fuel : nat) (s rest : string) :
  is_ascii s = true ->
  read_value (S fuel) (write_str s ++ rest) = Some (PUnicode s, rest).
Proof.
  intros H. unfold write_str. cbn [append]. rewrite append_assoc'.
  cbn [append].
  change (read_value (S fuel) (String "034" ?x)) with
    (match read_string x with
     | Some (t, rest) => Some (PUnicode t, rest)
     | None => None
     end).
  rewrite (read_string_written s rest H). reflexivity.
Qed.

Lemma read_value_true (fuel : nat) (rest : string) :
  read_value (S fuel) (String "t" (String "r" (String "u" (String "e" rest))))
  = Some (PBool true, rest).
Proof. reflexivity. Qed.

Lemma read_value_space (fuel : nat) (s : string) :
  read_value fuel (String " " s) = read_value fuel s.
Proof. destruct fuel; reflexivity. Qed.

Lemma read_items_space (fuel : nat) (s : string) :
  read_items fuel (String " " s) = read_items fuel s.
Proof. destruct fuel; reflexivity. Qed.

Lemma closing_ends (c : ascii) (r : string) :
  closing c = true -> ends_number (String c r).
Proof.
  unfold closing. rewrite !orb_true_iff.
  intros [[H | H] | H]; apply Ascii.eqb_eq in H; subst c; split; reflexivity.
Qed.

Lemma digit_dispatch (c : ascii) (tl : string) (fuel : nat) :
  digit c <> None ->
  read_value (S fuel) (String c tl) =
  match read_natural (String c tl) with
  | Some (n, rest) => Some (PInt n, rest)
  | None => None
  end.
Proof.
  destruct c as [b0 b1 b2 b3 b4 b5 b6 b7].
  destruct b0, b1, b2, b3, b4, b5, b6, b7;
    (intros H; exfalso; apply H; reflexivity) || (intros _; reflexivity).
Qed.

Lemma uint_first_digit (p : positive) :
  exists c r, NilZero.string_of_uint (Pos.to_uint p) = String c r /\
              digit c <> None.
Proof.
  pose proof (DecimalPos.Unsigned.to_uint_nonnil p) as Hnil.
  destruct (Pos.to_uint p); [contradiction | ..];
    cbn [NilZero.string_of_uint NilEmpty.string_of_uint];
    eexists _, _; (split; [reflexivity | discriminate]).
Qed.

Lemma read_value_int (fuel : nat) (z : Z) (c : ascii) (r : string) :
  closing c = true ->
  read_value (S fuel) (write_int z ++ String c r) = Some (PInt z, String c r).
Proof.
  intros Hc. pose proof (closing_ends c r Hc) as He.
  unfold write_int, NilZero.string_of_int. destruct z as [| p | p]; cbn [Z.to_int].
  - change (NilZero.string_of_uint Decimal.zero) with (String "0" EmptyString).
    cbn [append]. rewrite digit_dispatch by discriminate.
    rewrite (read_natural_zero _ He). reflexivity.
  - destruct (uint_first_digit p) as (c' & r' & E & Hd).
    pose proof (read_natural_pos p _ He) as Hn. rewrite E in *.
    cbn [append] in *. rewrite (digit_dispatch _ _ _ Hd), Hn. reflexivity.
  - cbn [append].
    change (read_value (S fuel) (String "-" ?x)) with
      (match read_natural x with
       | Some (n, rest) => Some (PInt (- n), rest)
       | None => None
       end).
    rewrite (read_natural_pos p _ He). reflexivity.
Qed.

Lemma read_items_key (fuel : nat) (k tl : string) :
  is_ascii k = true ->
  read_items (S fuel) (write_str k ++ String ":" (String " " tl)) =
  match read_value fuel tl with
  | Some (v, r3) =>
      match skip r3 with
      | String c rest =>
          if Ascii.eqb c "}"%char then Some ([(k, v)], rest)
          else if Ascii.eqb c ","%char then
            match read_items fuel rest with
            | Some (d, rest') => Some ((k, v) :: d, rest')
            | None => None
            end
          else None
      | EmptyString => None
      end
  | None => None
  end.
Proof.
  intros H. unfold write_str. cbn [append]. rewrite append_assoc'.
  cbn [append].
  change (read_items (S fuel) (String "034" ?x)) with
    (match read_string x with
     | Some (k, r1) =>
         match skip r1 with
         | String colon r2 =>
             if Ascii.eqb colon ":"%char then
               match read_value fuel r2 with
               | Some (v, r3) =>
                   match skip r3 with
                   | String c rest =>
                       if Ascii.eqb c "}"%char then Some ([(k, v)], rest)
                       else if Ascii.eqb c ","%char then
                         match read_items fuel rest with
                         | Some (d, rest') => Some ((k, v) :: d, rest')
                         | None => None
                         end
                       else None
                   | EmptyString => None
                   end
               | None => None
               end
             else None
         | EmptyString => None
         end
     | None => None
     end).
  rewrite (read_string_written k _ H).
  cbn [skip is_space Ascii.eqb Bool.eqb orb andb]. cbv iota.
  rewrite read_value_space. reflexivity.
Qed.

(** An item that is followed by another one, and the last item. *)
Lemma read_items_more (fuel : nat) (k w tl : string) (v : pyval) :
  is_ascii k = true ->
  (forall c r, closing c = true ->
     read_value fuel (w ++ String c r) = Some (v, String c r)) ->
  read_items (S fuel)
    (write_str k ++ String ":" (String " " (w ++ String "," (String " " tl))))
  = match read_items fuel tl with
    | Some (d, rest) => Some ((k, v) :: d, rest)
    | None => None
    end.
Proof.
  intros Hk Hv. rewrite (read_items_key fuel k _ Hk).
  rewrite (Hv ","%char (String " " tl) eq_refl).
  cbn [skip is_space Ascii.eqb Bool.eqb orb andb].
  cbv iota. rewrite read_items_space. reflexivity.
Qed.

Lemma read_items_last (fuel : nat) (k w tl : string) (v : pyval) :
  is_ascii k = true ->
  (forall c r, closing c = true ->
     read_value fuel (w ++ String c r) = Some (v, String c r)) ->
  read_items (S fuel)
    (write_str k ++ String ":" (String " " (w ++ String "}" tl)))
  = Some ([(k, v)], tl).
Proof.
  intros Hk Hv. rewrite (read_items_key fuel k _ Hk).
  rewrite (Hv "}"%char tl eq_refl). reflexivity.
Qed.

(** An object, given its items. *)
Lemma read_value_object (fuel : nat) (k tl : string)
    (d : list (string * pyval)) (rest : string) :
  read_items fuel (write_str k ++ tl) = Some (d, rest) ->
  read_value (S fuel) (String "{" (write_str k ++ tl)) = Some (PDict d, rest).
Proof.
  unfold write_str. cbn [append]. intros H.
  change (read_value (S fuel) (String "{" (String "034" ?x))) with
    (match read_items fuel (String "034" x) with
     | Some (d, rest) => Some (PDict d, rest)
     | None => None
     end).
  rewrite H. reflexivity.
Qed.

(** An array of one object, and an array of one string. *)
Lemma read_value_array_object (fuel : nat) (tl : string) (v : pyval)
    (rest : string) :
  read_value fuel (String "{" tl) = Some (v, String "]" rest) ->
  read_value (S (S fuel)) (String "[" (String "{" tl))
  = Some (PList [v], rest).
Proof.
  intros H.
  change (read_value (S (S fuel)) (String "[" (String "{" tl))) with
    (match
       match read_value fuel (String "{" tl) with
       | Some (v, r) =>
           match skip r with
           | String c rest =>
               if Ascii.eqb c "]"%char then Some ([v], rest)
               else if Ascii.eqb c ","%char then
                 match read_elements fuel rest with
                 | Some (l, rest') => Some (v :: l, rest')
                 | None => None
                 end
               else None
           | EmptyString => None
           end
       | None => None
       end
     with
     | Some (l, rest) => Some (PList l, rest)
     | None => None
     end).
  rewrite H. reflexivity.
Qed.

Lemma read_value_array_string (fuel : nat) (s rest : string) :
  is_ascii s = true ->
  read_value (S (S (S fuel))) (String "[" (write_str s ++ String "]" rest))
  = Some (PList [PUnicode s], rest).
Proof.
  intros H. pose proof (read_value_string fuel s (String "]" rest) H) as Hs.
  unfold write_str in *. cbn [append] in *.
  change (read_value (S (S (S fuel))) (String "[" (String "034" ?x))) with
    (match
       match read_value (S fuel) (String "034" x) with
       | Some (v, r) =>
           match skip r with
           | String c rest =>
               if Ascii.eqb c "]"%char then Some ([v], rest)
               else if Ascii.eqb c ","%char then
                 match read_elements (S fuel) rest with
                 | Some (l, rest') => Some (v :: l, rest')
                 | None => None
                 end
               else None
           | EmptyString => None
           end
       | None => None
       end
     with
     | Some (l, rest) => Some (PList l, rest)
     | None => None
     end).
  rewrite Hs. reflexivity.
Qed.

Ltac after_value :=
  cbn [skip is_space Ascii.eqb Bool.eqb orb andb]; cbv iota;
  rewrite ?read_items_space.

Ltac string_item H :=
  rewrite read_items_key by reflexivity;
  rewrite (read_value_string _ _ _ H); after_value.

Ltac true_item :=
  rewrite read_items_key by reflexivity;
  rewrite read_value_true; after_value.

Lemma read_value_payload (n h a : string) (p : Z) (fuel : nat) :
  is_ascii n = true -> is_ascii h = true -> is_ascii a = true ->
  read_value (15 + fuel)
    (write (Device.payload
              (Device.__init__ (PStr n) (PStr h) (PInt p) (PStr a))))
  = Some (decoded (Device.payload
                     (Device.__init__ (PStr n) (PStr h) (PInt p) (PStr a))),
          EmptyString).
Proof.
  intros Hn Hh Ha.
  cbn [write Device.payload Device.name Device.host Device.port
       Device.aetitle decoded map Nat.add].
  rewrite !append_assoc'. cbn [append]. rewrite ?append_assoc'. cbn [append].
  apply read_value_object.
  string_item Hn.
  true_item.
  rewrite read_items_key by reflexivity.
  erewrite read_value_array_object.
  2:{ apply read_value_object.
      string_item (eq_refl : is_ascii "dicom" = true).
      string_item Hh.
      rewrite read_items_key by reflexivity.
      rewrite (read_value_int _ p "}"%char _ eq_refl).
      reflexivity. }
  after_value.
  rewrite read_items_key by reflexivity.
  erewrite read_value_array_object.
  2:{ apply read_value_object.
      string_item Ha.
      true_item.
      true_item.
      rewrite read_items_key by reflexivity.
      rewrite (read_value_array_string _ "/dicomNetworkConnection/0" _ eq_refl).
      reflexivity. }
  reflexivity.
Qed.

Lemma payload_length (d : Device.t) :
  (7 <= String.length (write (Device.payload d)))%nat.
Proof.
  cbn [write Device.payload].
  rewrite !append_assoc'. cbn [append]. rewrite ?append_assoc'. cbn [append].
  unfold write_str at 1. cbn [append]. rewrite append_assoc'. cbn [append].
  cbn [String.length].
  do 2 (rewrite length_append'; cbn [String.length]). lia.
Qed.

(** The reference codec reads back the payload of every device with an
    ASCII name, host and AE title, its strings as [unicode]. *)
Lemma reads_back_payload (n h a : string) (p : Z) :
  is_ascii n = true -> is_ascii h = true -> is_ascii a = true ->
  read (write (Device.payload
                 (Device.__init__ (PStr n) (PStr h) (PInt p) (PStr a))))
  = inr (decoded (Device.payload
                    (Device.__init__ (PStr n) (PStr h) (PInt p) (PStr a)))).
Proof.
  intros Hn Hh Ha. unfold read.
  pose proof (payload_length
                (Device.__init__ (PStr n) (PStr h) (PInt p) (PStr a))) as Hl.
  replace (2 * String.length
             (write (Device.payload
                       (Device.__init__ (PStr n) (PStr h) (PInt p) (PStr a))))
           + 2)%nat
    with (15 + (2 * String.length
                  (write (Device.payload
                            (Device.__init__ (PStr n) (PStr h) (PInt p)
                               (PStr a)))) - 13))%nat by lia.
  rewrite (read_value_payload n h a p _ Hn Hh Ha).
  reflexivity.
Qed.

End RefJsonFacts.

(* ===================================================================== *)
(** * Properties of [Device] *)
(* ===================================================================== *)

Module DeviceFacts.

Import Device.

(** The comparison of the two [__dict__]s comes down to the four
    attributes, one after the other. *)
Lemma eq_fields (a b : t) :
  __eq__ a b =
  py_eq (name a) (name b) && py_eq (host a) (host b) &&
  py_eq (port a) (port b) && py_eq (aetitle a) (aetitle b).
Proof.
  unfold __eq__, __dict__. cbn.
  rewrite !andb_true_r, !andb_assoc. reflexivity.
Qed.

(** On such devices [==] is the identity of the four values. *)
Lemma eq_typed (a b : t) :
  typed a -> typed b -> (__eq__ a b = true <-> a = b).
Proof.
  intros (n & h & p & e & ->) (n' & h' & p' & e' & ->).
  rewrite eq_fields. cbn. rewrite !andb_true_iff.
  rewrite !String.eqb_eq, Z.eqb_eq. split.
  - intros [[[-> ->] ->] ->]. reflexivity.
  - intros H. injection H as -> -> -> ->. auto.
Qed.

(** [==] on attributes is Python's: a port [True] equals a port [1]. *)
Example port_True_equals_1 :
  __eq__ (__init__ (PStr "w") (PStr "h") (PBool true) (PStr "AE"))
         (__init__ (PStr "w") (PStr "h") (PInt 1) (PStr "AE")) = true.
Proof. reflexivity. Qed.

(** C7. Equality of devices is equality of the four attributes: [a == b]
    holds exactly when the names, the hosts, the ports and the AE titles
    are equal ([==] on the values), and replacing any one attribute of a
    device by a value unequal to it gives a device unequal to the
    original. *)
Theorem eq_structural (a b : t) :
  (__eq__ a b = true <->
     py_eq (name a) (name b) = true /\ py_eq (host a) (host b) = true /\
     py_eq (port a) (port b) = true /\
     py_eq (aetitle a) (aetitle b) = true) /\
  (forall v, py_eq (name a) v = false ->
     __eq__ a (__init__ v (host a) (port a) (aetitle a)) = false) /\
  (forall v, py_eq (host a) v = false ->
     __eq__ a (__init__ (name a) v (port a) (aetitle a)) = false) /\
  (forall v, py_eq (port a) v = false ->
     __eq__ a (__init__ (name a) (host a) v (aetitle a)) = false) /\
  (forall v, py_eq (aetitle a) v = false ->
     __eq__ a (__init__ (name a) (host a) (port a) v) = false).
Proof.
  split; [| repeat split; intros v Hv; rewrite eq_fields; cbn [name host port aetitle];
            rewrite Hv, ?andb_false_r; reflexivity ].
  rewrite eq_fields, !andb_true_iff. tauto.
Qed.

(** C10. [!=] is the negation of [==]: for any two devices [a != b]
    holds exactly when [a == b] does not, so exactly one of the two
    comparisons is true. *)
Theorem ne_negates_eq (a b : t) :
  __ne__ a b = negb (__eq__ a b) /\
  (__ne__ a b = true <-> __eq__ a b <> true) /\
  xorb (__eq__ a b) (__ne__ a b) = true.
Proof.
  unfold __ne__. destruct (__eq__ a b); cbn; repeat split; congruence.
Qed.

(** *** Parsing *)

Lemma bindE_inr {X Y : Type} (c : exn + X) (k : X -> exn + Y) (y : Y) :
  bindE c k = inr y -> exists x, c = inr x /\ k x = inr y.
Proof. destruct c as [e | x]; cbn; [discriminate | eauto]. Qed.

(** A subscript raises nothing but [KeyError], [IndexError] and
    [TypeError]. *)
Lemma getitem_error (o k : pyval) (e : exn) :
  getitem o k = inl e -> shape_error e = true.
Proof.
  unfold getitem.
  destruct o, k;
    repeat match goal with
      | |- context [match ?x with _ => _ end] => destruct x
      end;
    first [discriminate | intros [= <-]; reflexivity].
Qed.

Lemma bindE_error {X Y : Type} (c : exn + X) (k : X -> exn + Y) (e : exn) :
  bindE c k = inl e ->
  c = inl e \/ exists x, c = inr x /\ k x = inl e.
Proof. destruct c as [e' | x]; cbn; [intros [= ->]; auto | eauto]. Qed.

Ltac shape_errors :=
  repeat match goal with
    | H : bindE _ _ = inl _ |- _ =>
        apply bindE_error in H; destruct H as [H | (? & ? & H)]
    | H : getitem _ _ = inl _ |- _ => exact (getitem_error _ _ _ H)
    | H : inr _ = inl _ |- _ => discriminate H
    end.

Lemma of_data_error (data : pyval) (e : exn) :
  of_data data = inl e -> shape_error e = true.
Proof. unfold of_data. intros H. shape_errors. Qed.

(** The subscripts that a successful parse has taken. *)
Lemma of_data_inr (data : pyval) (dev : t) :
  of_data data = inr dev ->
  exists c c0 a a0,
    getitem data (PStr "dicomDeviceName") = inr (name dev) /\
    getitem data (PStr "dicomNetworkConnection") = inr c /\
    getitem c (PInt 0) = inr c0 /\
    getitem c0 (PStr "dicomHostname") = inr (host dev) /\
    getitem c0 (PStr "dicomPort") = inr (port dev) /\
    getitem data (PStr "dicomNetworkAE") = inr a /\
    getitem a (PInt 0) = inr a0 /\
    getitem a0 (PStr "dicomAETitle") = inr (aetitle dev).
Proof.
  unfold of_data. intros H.
  apply bindE_inr in H as (n & Hn & H).
  apply bindE_inr in H as (h & Hh & H).
  apply bindE_inr in H as (p & Hp & H).
  apply bindE_inr in H as (t & Ht & H).
  injection H as <-. cbn [name host port aetitle].
  apply bindE_inr in Hh as (c & Hc & Hh).
  apply bindE_inr in Hh as (c0 & Hc0 & Hh).
  apply bindE_inr in Hp as (c' & Hc' & Hp).
  apply bindE_inr in Hp as (c0' & Hc0' & Hp).
  apply bindE_inr in Ht as (a & Ha & Ht).
  apply bindE_inr in Ht as (a0 & Ha0 & Ht).
  assert (c' = c) as -> by congruence.
  assert (c0' = c0) as -> by congruence.
  exists c, c0, a, a0. auto 10.
Qed.

Lemma of_data_well_formed (data n h p t : pyval) :
  well_formed data n h p t -> of_data data = inr (__init__ n h p t).
Proof.
  intros (d & c & cs & e & es & -> & Hn & Hc & Hh & Hp & He & Ht).
  unfold of_data. cbn [getitem bindE].
  rewrite Hn, Hc, He. cbn. rewrite Hh, Hp, Ht. reflexivity.
Qed.

Lemma of_data_incomplete (data : pyval) :
  incomplete data -> exists e, of_data data = inl e /\ shape_error e = true.
Proof.
  intros Hi.
  destruct (of_data data) as [e | dev] eqn:E.
  { exists e. split; [reflexivity | exact (of_data_error _ _ E)]. }
  exfalso.
  apply of_data_inr in E
    as (c & c0 & a & a0 & Hn & Hc & Hc0 & Hh & Hp & Ha & Ha0 & Ht).
  destruct Hi as [d k Hk Hm | d Hm | d Hm | d c' cs k Hm Hk Hk' | d e' es Hm Hm'];
    cbn [getitem] in Hn, Hc, Ha.
  - destruct Hk as [<- | [<- | [<- | []]]]; rewrite Hm in *; discriminate.
  - rewrite Hm in Hc. injection Hc as <-. discriminate Hc0.
  - rewrite Hm in Ha. injection Ha as <-. discriminate Ha0.
  - rewrite Hm in Hc. injection Hc as <-. cbn in Hc0. injection Hc0 as <-.
    cbn [getitem] in Hh, Hp.
    destruct Hk as [<- | [<- | []]]; rewrite Hk' in *; discriminate.
  - rewrite Hm in Ha. injection Ha as <-. cbn in Ha0. injection Ha0 as <-.
    cbn [getitem] in Ht. rewrite Hm' in Ht. discriminate.
Qed.

Section WithJson.
Context {J : Json}.

(** [from_json] on the payload of a device as [json.loads] returns it. *)
Lemma of_data_decoded_payload (d : t) :
  of_data (decoded (payload d)) = inr (reread d).
Proof. destruct d. reflexivity. Qed.

(** An attribute against what it has become. *)
Lemma plain_eq (v : pyval) : plain v = true -> py_eq (decoded v) v = true.
Proof.
  destruct v; cbn; try discriminate; intros H.
  - reflexivity.
  - apply eqb_reflx.
  - apply Z.eqb_refl.
  - rewrite H. apply String.eqb_refl.
  - apply String.eqb_refl.
Qed.

Lemma beyond_ascii_ne (v : pyval) :
  beyond_ascii v = true -> py_eq (decoded v) v = false.
Proof.
  destruct v; cbn; try discriminate.
  intros H. apply negb_true_iff in H. rewrite H. reflexivity.
Qed.

(** The round trip for any [json] that reads back what it wrote, with
    the strings as [unicode]. *)
Lemma round_trip_interface (d : t) :
  loads (dumps (payload d)) = inr (decoded (payload d)) ->
  from_json (to_json d) = inr (reread d) /\
  (plain (name d) && plain (host d) && plain (port d) && plain (aetitle d)
   = true ->
   __eq__ (reread d) d = true) /\
  (beyond_ascii (name d) || beyond_ascii (host d) || beyond_ascii (port d)
   || beyond_ascii (aetitle d) = true ->
   __eq__ (reread d) d = false).
Proof.
  intros H. split; [| split].
  - unfold from_json, to_json. rewrite H. cbn [bindE].
    apply of_data_decoded_payload.
  - rewrite !andb_true_iff. intros [[[Hn Hh] Hp] Ha].
    rewrite eq_fields. unfold reread. cbn [name host port aetitle].
    rewrite (plain_eq _ Hn), (plain_eq _ Hh), (plain_eq _ Hp),
      (plain_eq _ Ha).
    reflexivity.
  - rewrite !orb_true_iff. intros Hb.
    rewrite eq_fields. unfold reread. cbn [name host port aetitle].
    destruct Hb as [[[Hb | Hb] | Hb] | Hb];
      rewrite (beyond_ascii_ne _ Hb), ?andb_false_r; reflexivity.
Qed.

(** C9. Parsing looks at four values only: two well-formed responses
    with the same device name, the same hostname and port in the first
    connection entry and the same AE title in the first
    application-entity entry give the same device, whatever else they
    hold (flags, connection references, further entries of the two
    arrays). *)
Theorem from_json_four_values (s1 s2 : string) (data1 data2 n h p t : pyval) :
  loads s1 = inr data1 ->
  loads s2 = inr data2 ->
  well_formed data1 n h p t ->
  well_formed data2 n h p t ->
  from_json s1 = inr (__init__ n h p t) /\
  from_json s2 = from_json s1.
Proof.
  intros L1 L2 W1 W2. unfold from_json. rewrite L1, L2. cbn [bindE].
  rewrite (of_data_well_formed _ _ _ _ _ W1), (of_data_well_formed _ _ _ _ _ W2). auto.
Qed.

End WithJson.




Lemma from_json_four_values_witness :
  from_json (J := RefJson.json) Sample.document = inr Sample.stored /\
  from_json (J := RefJson.json) (RefJson.write Sample.verbose)
  = from_json (J := RefJson.json) Sample.document.
Proof.
  apply (from_json_four_values (J := RefJson.json)
           Sample.document (RefJson.write Sample.verbose)
           (decoded (payload Sample.device)) Sample.verbose).
  - vm_compute; reflexivity.
  - vm_compute; reflexivity.
  - unfold well_formed. do 5 eexists. repeat split; reflexivity.
  - unfold well_formed. do 5 eexists. repeat split; reflexivity.
Defined.

End DeviceFacts.

(* ===================================================================== *)
(** * Properties of [DeviceAPI] *)
(* ===================================================================== *)

Module DeviceAPIFacts.

Import DeviceAPI.

Section WithLibraries.
Context {A : Archive} {J : Json}.

(** One call of [__urlopen__]: the request goes out once, and the
    answer decides between a response, [None] and an exception. *)
Lemma urlopen_run (api : t) (request : Request) (ignore_error : option Z)
    (w : world) (r : Reply) (a : server) :
  respond request (archive w) = (r, a) ->
  __urlopen__ api request ignore_error w =
  (match r with
   | Answer status content =>
       if success status then
         inr (Some {| code := status; body := content |})
       else if code_is status ignore_error then inr None
       else inl (HTTPError status)
   | NoAnswer => inl URLError
   end, after w request a).
Proof.
  intros H.
  unfold __urlopen__, except_HTTPError, bind, urllib2_urlopen, ret, raise.
  rewrite H. unfold after.
  destruct r as [status content |]; cbn; [| reflexivity].
  destruct (success status); [reflexivity |].
  destruct (code_is status ignore_error); reflexivity.
Qed.

Lemma not_success_404 : success 404 = false.
Proof. reflexivity. Qed.

Lemma not_success_409 : success 409 = false.
Proof. reflexivity. Qed.

Lemma code_is_other (status c : Z) :
  status <> c -> code_is status (Some c) = false.
Proof. intros H. cbn. apply Z.eqb_neq, H. Qed.

(** C4. [read] sends one GET to the resource URL. When the archive
    answers 200, the body is parsed: the device is returned, or the
    error of the parse is raised. When it answers 404, [read] returns
    [None] and raises nothing. With any other status that is not a
    success, [read] raises the [HTTPError] of that status. *)
Theorem read_outcomes (api : t) (w : world) (r : Reply) (a : server) :
  let request := __request__ api None "GET" in
  respond request (archive w) = (r, a) ->
  get_method request = "GET" /\ req_url request = url api /\
  (forall content, r = Answer 200 content ->
     read api w =
     (match Device.from_json content with
      | inr device => inr (Some device)
      | inl e => inl e
      end, after w request a)) /\
  (forall content, r = Answer 404 content ->
     read api w = (inr None, after w request a)) /\
  (forall status content, r = Answer status content ->
     success status = false -> status <> 404 ->
     read api w = (inl (HTTPError status), after w request a)).
Proof.
  intros request H. split; [reflexivity | split; [reflexivity |]].
  unfold read, bind. fold request.
  rewrite (urlopen_run api request (Some 404) w r a H).
  repeat split.
  - intros content ->. cbn. unfold lift, ret.
    destruct (Device.from_json content); reflexivity.
  - intros content ->. reflexivity.
  - intros status content -> Hs Hn.
    rewrite Hs, (code_is_other _ _ Hn). reflexivity.
Qed.

(** C5. [create] sends one POST with the serialized device as its
    body. A success (a status from 200 to 299) returns [True]; a 409
    returns [False] and raises nothing; any other status raises the
    [HTTPError] of that status. *)
Theorem create_outcomes (api : t) (device : Device.t) (w : world)
    (r : Reply) (a : server) :
  let request := __request__ api (Some (Device.to_json device)) "POST" in
  respond request (archive w) = (r, a) ->
  get_method request = "POST" /\
  req_data request = Some (Device.to_json device) /\
  (forall status content, r = Answer status content ->
     success status = true ->
     create api device w = (inr true, after w request a)) /\
  (forall content, r = Answer 409 content ->
     create api device w = (inr false, after w request a)) /\
  (forall status content, r = Answer status content ->
     success status = false -> status <> 409 ->
     create api device w = (inl (HTTPError status), after w request a)).
Proof.
  intros request H. split; [reflexivity | split; [reflexivity |]].
  unfold create, bind. fold request.
  rewrite (urlopen_run api request (Some 409) w r a H).
  repeat split.
  - intros status content -> Hs. rewrite Hs. reflexivity.
  - intros content ->. reflexivity.
  - intros status content -> Hs Hn.
    rewrite Hs, (code_is_other _ _ Hn). reflexivity.
Qed.

(** [read] and [create] over all answers at once. *)
Lemma read_run (api : t) (w : world) (r : Reply) (a : server) :
  let request := __request__ api None "GET" in
  respond request (archive w) = (r, a) ->
  read api w =
  (match r with
   | Answer status content =>
       if success status then
         match Device.from_json content with
         | inr device => inr (Some device)
         | inl e => inl e
         end
       else if status =? 404 then inr None
       else inl (HTTPError status)
   | NoAnswer => inl URLError
   end, after w request a).
Proof.
  intros request H. unfold read, bind. fold request.
  rewrite (urlopen_run api request (Some 404) w r a H).
  destruct r as [status content |]; [| reflexivity].
  destruct (success status).
  - unfold lift, ret. destruct (Device.from_json _); reflexivity.
  - cbn. destruct (status =? 404); reflexivity.
Qed.

Lemma create_run (api : t) (device : Device.t) (w : world)
    (r : Reply) (a : server) :
  let request := __request__ api (Some (Device.to_json device)) "POST" in
  respond request (archive w) = (r, a) ->
  create api device w =
  (match r with
   | Answer status _ =>
       if success status then inr true
       else if status =? 409 then inr false
       else inl (HTTPError status)
   | NoAnswer => inl URLError
   end, after w request a).
Proof.
  intros request H. unfold create, bind. fold request.
  rewrite (urlopen_run api request (Some 409) w r a H).
  destruct r as [status content |]; [| reflexivity].
  destruct (success status); [reflexivity |].
  cbn. destruct (status =? 409); reflexivity.
Qed.

(** [update] and [delete] follow the same pattern, with 404 as the
    status that is not an error. *)
Lemma update_outcomes (api : t) (device : Device.t) (w : world)
    (r : Reply) (a : server) :
  let request := __request__ api (Some (Device.to_json device)) "PUT" in
  respond request (archive w) = (r, a) ->
  update api device w =
  (match r with
   | Answer status _ =>
       if success status then inr true
       else if status =? 404 then inr false
       else inl (HTTPError status)
   | NoAnswer => inl URLError
   end, after w request a).
Proof.
  intros request H. unfold update, bind. fold request.
  rewrite (urlopen_run api request (Some 404) w r a H).
  destruct r as [status content |]; [| reflexivity].
  destruct (success status); [reflexivity |].
  cbn. destruct (status =? 404); reflexivity.
Qed.

Lemma delete_outcomes (api : t) (w : world) (r : Reply) (a : server) :
  let request := __request__ api None "DELETE" in
  respond request (archive w) = (r, a) ->
  delete api w =
  (match r with
   | Answer status _ =>
       if success status then inr true
       else if status =? 404 then inr false
       else inl (HTTPError status)
   | NoAnswer => inl URLError
   end, after w request a).
Proof.
  intros request H. unfold delete, bind. fold request.
  rewrite (urlopen_run api request (Some 404) w r a H).
  destruct r as [status content |]; [| reflexivity].
  destruct (success status); [reflexivity |].
  cbn. destruct (status =? 404); reflexivity.
Qed.

End WithLibraries.

Lemma read_outcomes_witness :
  read (A := scripted) (J := RefJson.json) Sample.api
    (start [Answer 200 Sample.document])
  = (inr (Some Sample.stored), Sample.finish [] [Sample.GET]) /\
  read (A := scripted) (J := RefJson.json) Sample.api
    (start [Answer 404 EmptyString])
  = (inr None, Sample.finish [] [Sample.GET]) /\
  read (A := scripted) (J := RefJson.json) Sample.api
    (start [Answer 500 EmptyString])
  = (inl (HTTPError 500), Sample.finish [] [Sample.GET]).
Proof.
  split; [| split].
  - destruct (read_outcomes (A := scripted) (J := RefJson.json) Sample.api
                (start [Answer 200 Sample.document])
                (Answer 200 Sample.document) [] eq_refl)
      as (_ & _ & H & _).
    rewrite (H _ eq_refl). vm_compute. reflexivity.
  - destruct (read_outcomes (A := scripted) (J := RefJson.json) Sample.api
                (start [Answer 404 EmptyString])
                (Answer 404 EmptyString) [] eq_refl)
      as (_ & _ & _ & H & _).
    rewrite (H _ eq_refl). reflexivity.
  - destruct (read_outcomes (A := scripted) (J := RefJson.json) Sample.api
                (start [Answer 500 EmptyString])
                (Answer 500 EmptyString) [] eq_refl)
      as (_ & _ & _ & _ & H).
    rewrite (H 500 EmptyString eq_refl eq_refl ltac:(lia)). reflexivity.
Defined.

Lemma create_outcomes_witness :
  create (A := scripted) (J := RefJson.json) Sample.api Sample.device
    (start [Answer 201 EmptyString])
  = (inr true, Sample.finish [] [Sample.POST]) /\
  create (A := scripted) (J := RefJson.json) Sample.api Sample.device
    (start [Answer 409 EmptyString])
  = (inr false, Sample.finish [] [Sample.POST]) /\
  create (A := scripted) (J := RefJson.json) Sample.api Sample.device
    (start [Answer 500 EmptyString])
  = (inl (HTTPError 500), Sample.finish [] [Sample.POST]).
Proof.
  split; [| split].
  - destruct (create_outcomes (A := scripted) (J := RefJson.json)
                Sample.api Sample.device (start [Answer 201 EmptyString])
                (Answer 201 EmptyString) [] eq_refl)
      as (_ & _ & H & _).
    rewrite (H 201 EmptyString eq_refl eq_refl). reflexivity.
  - destruct (create_outcomes (A := scripted) (J := RefJson.json)
                Sample.api Sample.device (start [Answer 409 EmptyString])
                (Answer 409 EmptyString) [] eq_refl)
      as (_ & _ & _ & H & _).
    rewrite (H _ eq_refl). reflexivity.
  - destruct (create_outcomes (A := scripted) (J := RefJson.json)
                Sample.api Sample.device (start [Answer 500 EmptyString])
                (Answer 500 EmptyString) [] eq_refl)
      as (_ & _ & _ & _ & H).
    rewrite (H 500 EmptyString eq_refl eq_refl ltac:(lia)). reflexivity.
Defined.

End DeviceAPIFacts.

(* ===================================================================== *)
(** * Properties of [main] *)
(* ===================================================================== *)

Module MainFacts.

Section WithLibraries.
Context {A : Archive} {J : Json}.

(** The three branches of [main], by the value of [state]. *)
Lemma main_present (p : params) (w : world) :
  state p = "present" ->
  main p w =
  bind
    (bind (DeviceAPI.read (DeviceAPI.__init__ (api_url p) (name p)))
       (fun actual_device =>
          match actual_device with
          | None =>
              DeviceAPI.create (DeviceAPI.__init__ (api_url p) (name p))
                (expected_device p)
          | Some actual =>
              if Device.__ne__ actual (expected_device p) then
                DeviceAPI.update (DeviceAPI.__init__ (api_url p) (name p))
                  (expected_device p)
              else ret false
          end))
    (fun c => ret (report p c)) w.
Proof.
  intros H. unfold main.
  replace (state p =? "present")%string with true
    by (rewrite H; reflexivity).
  reflexivity.
Qed.

Lemma main_absent (p : params) (w : world) :
  state p = "absent" ->
  main p w =
  bind (DeviceAPI.delete (DeviceAPI.__init__ (api_url p) (name p)))
    (fun c => ret (report p c)) w.
Proof.
  intros H. unfold main.
  replace (state p =? "present")%string with false
    by (rewrite H; reflexivity).
  replace (state p =? "absent")%string with true
    by (rewrite H; reflexivity).
  reflexivity.
Qed.

Lemma main_other (p : params) (w : world) :
  state p <> "present" -> state p <> "absent" ->
  main p w = (inr (report p false), w).
Proof.
  intros H1 H2. unfold main.
  apply String.eqb_neq in H1, H2. rewrite H1, H2. reflexivity.
Qed.

(** C1. With [state=present]: when [read] finds no device, [main]
    calls [create] with the desired device and reports what [create]
    returned as [changed]; when [read] returns a device that is not
    equal to the desired one, it calls [update] with the desired
    device and reports what [update] returned; when the device read
    equals the desired one, it sends nothing more and reports
    [changed = False]. *)
Theorem present_reconciles (p : params) (w : world) :
  state p = "present" ->
  let api := DeviceAPI.__init__ (api_url p) (name p) in
  let desired := expected_device p in
  (forall w1, DeviceAPI.read api w = (inr None, w1) ->
     main p w =
     bind (DeviceAPI.create api desired) (fun c => ret (report p c)) w1) /\
  (forall actual w1, DeviceAPI.read api w = (inr (Some actual), w1) ->
     Device.__eq__ actual desired = false ->
     main p w =
     bind (DeviceAPI.update api desired) (fun c => ret (report p c)) w1) /\
  (forall actual w1, DeviceAPI.read api w = (inr (Some actual), w1) ->
     Device.__eq__ actual desired = true ->
     main p w = (inr (report p false), w1)).
Proof.
  intros Hs api desired. subst api desired.
  rewrite (main_present p w Hs).
  repeat split; intros *; intros Hr; try intros He;
    unfold bind at 1 2; rewrite Hr; unfold Device.__ne__;
    rewrite ?He; reflexivity.
Qed.

(** C3. With [state=absent], [main] calls [delete] whatever the
    archive holds: it sends one DELETE and nothing else, and reports
    what [delete] returned as [changed]: [True] when the archive
    answers with a success, [False] when it answers 404, and in that
    case nothing is raised. *)
Theorem absent_deletes (p : params) (w : world) (r : Reply) (a : server) :
  state p = "absent" ->
  let api := DeviceAPI.__init__ (api_url p) (name p) in
  let request := DeviceAPI.__request__ api None "DELETE" in
  respond request (archive w) = (r, a) ->
  main p w = bind (DeviceAPI.delete api) (fun c => ret (report p c)) w /\
  sent (snd (main p w)) = (sent w ++ [request])%list /\
  (forall status content, r = Answer status content ->
     success status = true ->
     main p w = (inr (report p true), after w request a)) /\
  (forall content, r = Answer 404 content ->
     main p w = (inr (report p false), after w request a)).
Proof.
  intros Hs api request H. subst api request.
  rewrite (main_absent p w Hs). split; [reflexivity |].
  unfold bind. rewrite (DeviceAPIFacts.delete_outcomes _ w r a H).
  repeat split.
  - destruct r as [status content |]; [| reflexivity].
    destruct (success status); [reflexivity |].
    destruct (status =? 404); reflexivity.
  - intros status content -> Hok. rewrite Hok. reflexivity.
  - intros content ->. reflexivity.
Qed.

(** The requests of a run, in order: nothing, one GET, a GET and then
    a POST or a PUT, or one DELETE. *)
Lemma main_requests (p : params) (w : world) :
  let api := DeviceAPI.__init__ (api_url p) (name p) in
  let body := Some (Device.to_json (expected_device p)) in
  let GET := DeviceAPI.__request__ api None "GET" in
  let POST := DeviceAPI.__request__ api body "POST" in
  let PUT := DeviceAPI.__request__ api body "PUT" in
  let DELETE := DeviceAPI.__request__ api None "DELETE" in
  exists new,
    sent (snd (main p w)) = (sent w ++ new)%list /\
    In new [[]; [GET]; [GET; POST]; [GET; PUT]; [DELETE]].
Proof.
  intros api body GET POST PUT DELETE.
  destruct (String.eqb_spec (state p) "present") as [Hp | Hp].
  - rewrite (main_present p w Hp). fold api.
    unfold bind at 1 2.
    destruct (respond GET (archive w)) as [r a] eqn:Hr.
    rewrite (DeviceAPIFacts.read_run api w r a Hr). fold GET.
    assert (Hget : exists new,
              sent (after w GET a) = (sent w ++ new)%list /\
              In new [[]; [GET]; [GET; POST]; [GET; PUT]; [DELETE]]).
    { exists [GET]. cbn. auto. }
    destruct r as [status content |]; [| exact Hget].
    assert (Hpost : exists new,
              sent (snd (bind (DeviceAPI.create api (expected_device p))
                           (fun c => ret (report p c)) (after w GET a)))
              = (sent w ++ new)%list /\
              In new [[]; [GET]; [GET; POST]; [GET; PUT]; [DELETE]]).
    { unfold bind.
      destruct (respond POST (archive (after w GET a))) as [r' a'] eqn:Hr'.
      rewrite (DeviceAPIFacts.create_run api _ _ r' a' Hr'). fold body POST.
      exists [GET; POST]. split; [| cbn; auto].
      destruct r' as [st c |]; [| cbn; rewrite <- app_assoc; reflexivity].
      destruct (success st); [cbn; rewrite <- app_assoc; reflexivity |].
      destruct (st =? 409); cbn; rewrite <- app_assoc; reflexivity. }
    destruct (success status).
    + destruct (Device.from_json content) as [e | actual]; [exact Hget |].
      destruct (Device.__ne__ actual (expected_device p)); [| exact Hget].
      destruct (respond PUT (archive (after w GET a))) as [r' a'] eqn:Hr'.
      rewrite (DeviceAPIFacts.update_outcomes api _ _ r' a' Hr').
      fold body PUT.
      exists [GET; PUT]. split; [| cbn; auto].
      destruct r' as [st c |]; [| cbn; rewrite <- app_assoc; reflexivity].
      destruct (success st); [cbn; rewrite <- app_assoc; reflexivity |].
      destruct (st =? 404); cbn; rewrite <- app_assoc; reflexivity.
    + destruct (status =? 404); [exact Hpost | exact Hget].
  - destruct (String.eqb_spec (state p) "absent") as [Ha | Ha].
    + rewrite (main_absent p w Ha). fold api. unfold bind.
      destruct (respond DELETE (archive w)) as [r a] eqn:Hr.
      rewrite (DeviceAPIFacts.delete_outcomes api w r a Hr). fold DELETE.
      exists [DELETE]. split; [| cbn; auto 10].
      destruct r as [st c |]; [| reflexivity].
      destruct (success st); [reflexivity |].
      destruct (st =? 404); reflexivity.
    + rewrite (main_other p w Hp Ha). exists []. cbn.
      rewrite app_nil_r. auto.
Qed.

(** C8. A run sends at most two requests: at most one GET and at most
    one of POST, PUT and DELETE, whatever the parameters and whatever
    the archive answers, also when the run ends with an exception. *)
Theorem at_most_two_requests (p : params) (w : world) :
  exists new,
    sent (snd (main p w)) = (sent w ++ new)%list /\
    (length new <= 2)%nat /\
    (count is_GET new <= 1)%nat /\
    (count is_write new <= 1)%nat.
Proof.
  destruct (main_requests p w) as (new & Hsent & Hnew).
  exists new. split; [exact Hsent |].
  cbn in Hnew.
  destruct Hnew as [<- | [<- | [<- | [<- | [<- | []]]]]];
    cbn; repeat split; lia.
Qed.

(** C6. A response in which a member that the parse needs is missing,
    or whose connection array or application-entity array is empty,
    gives no device: [from_json] raises a [KeyError], an [IndexError]
    or a [TypeError], and the exception goes through [read] and [main]
    to the caller. *)
Theorem incomplete_response_fails (s : string) (data : pyval) :
  loads s = inr data ->
  incomplete data ->
  exists e,
    shape_error e = true /\
    Device.from_json s = inl e /\
    (forall api w status a,
       let request := DeviceAPI.__request__ api None "GET" in
       respond request (archive w) = (Answer status s, a) ->
       success status = true ->
       DeviceAPI.read api w = (inl e, after w request a)) /\
    (forall p w status a,
       let api := DeviceAPI.__init__ (api_url p) (name p) in
       let request := DeviceAPI.__request__ api None "GET" in
       state p = "present" ->
       respond request (archive w) = (Answer status s, a) ->
       success status = true ->
       main p w = (inl e, after w request a)).
Proof.
  intros Hl Hi.
  destruct (DeviceFacts.of_data_incomplete data Hi) as (e & He & Hshape).
  assert (Hf : Device.from_json s = inl e).
  { unfold Device.from_json. rewrite Hl. exact He. }
  exists e. repeat split; [exact Hshape | exact Hf | |].
  - intros api w status a request Hr Hok.
    rewrite (DeviceAPIFacts.read_run api w _ a Hr), Hok, Hf. reflexivity.
  - intros p w status a api request Hs Hr Hok.
    rewrite (main_present p w Hs). fold api. unfold bind at 1 2.
    rewrite (DeviceAPIFacts.read_run api w _ a Hr), Hok, Hf. reflexivity.
Qed.

End WithLibraries.

(** Scenarios A, C and B: the device is not there, is there on another
    port, is there as wanted. *)
Lemma present_reconciles_witness :
  state Sample.wanted = "present" /\
  main (A := scripted) (J := RefJson.json) Sample.wanted
    (start [Answer 404 EmptyString; Answer 201 EmptyString])
  = (inr (report Sample.wanted true),
     Sample.finish [] [Sample.GET; Sample.POST]) /\
  main (A := scripted) (J := RefJson.json) Sample.wanted
    (start [Answer 200 Sample.moved; Answer 204 EmptyString])
  = (inr (report Sample.wanted true),
     Sample.finish [] [Sample.GET; Sample.PUT]) /\
  main (A := scripted) (J := RefJson.json) Sample.wanted
    (start [Answer 200 Sample.document; Answer 204 EmptyString])
  = (inr (report Sample.wanted false),
     Sample.finish [Answer 204 EmptyString] [Sample.GET]).
Proof.
  split; [reflexivity |].
  split; [| split].
  - destruct (present_reconciles (A := scripted) (J := RefJson.json)
                Sample.wanted
                (start [Answer 404 EmptyString; Answer 201 EmptyString])
                eq_refl) as (H & _ & _).
    rewrite (H (Sample.finish [Answer 201 EmptyString] [Sample.GET])
               eq_refl).
    reflexivity.
  - destruct (present_reconciles (A := scripted) (J := RefJson.json)
                Sample.wanted
                (start [Answer 200 Sample.moved; Answer 204 EmptyString])
                eq_refl) as (_ & H & _).
    assert (Hr : DeviceAPI.read (A := scripted) (J := RefJson.json)
                   (DeviceAPI.__init__ (api_url Sample.wanted)
                      (name Sample.wanted))
                   (start [Answer 200 Sample.moved; Answer 204 EmptyString])
                 = (inr (Some Sample.elsewhere),
                    Sample.finish [Answer 204 EmptyString] [Sample.GET]))
      by (vm_compute; reflexivity).
    rewrite (H _ _ Hr eq_refl). reflexivity.
  - destruct (present_reconciles (A := scripted) (J := RefJson.json)
                Sample.wanted
                (start [Answer 200 Sample.document; Answer 204 EmptyString])
                eq_refl) as (_ & _ & H).
    assert (Hr : DeviceAPI.read (A := scripted) (J := RefJson.json)
                   (DeviceAPI.__init__ (api_url Sample.wanted)
                      (name Sample.wanted))
                   (start [Answer 200 Sample.document;
                           Answer 204 EmptyString])
                 = (inr (Some Sample.stored),
                    Sample.finish [Answer 204 EmptyString] [Sample.GET]))
      by (vm_compute; reflexivity).
    rewrite (H _ _ Hr eq_refl). reflexivity.
Defined.

(** A deletion that removes the device, and scenario D: nothing to
    delete. *)
Lemma absent_deletes_witness :
  state Sample.unwanted = "absent" /\
  main (A := scripted) (J := RefJson.json) Sample.unwanted
    (start [Answer 204 EmptyString])
  = (inr (report Sample.unwanted true), Sample.finish [] [Sample.DELETE]) /\
  main (A := scripted) (J := RefJson.json) Sample.unwanted
    (start [Answer 404 EmptyString])
  = (inr (report Sample.unwanted false), Sample.finish [] [Sample.DELETE]).
Proof.
  split; [reflexivity |].
  split.
  - destruct (absent_deletes (A := scripted) (J := RefJson.json)
                Sample.unwanted (start [Answer 204 EmptyString])
                (Answer 204 EmptyString) [] eq_refl eq_refl)
      as (_ & _ & H & _).
    rewrite (H 204 EmptyString eq_refl eq_refl). reflexivity.
  - destruct (absent_deletes (A := scripted) (J := RefJson.json)
                Sample.unwanted (start [Answer 404 EmptyString])
                (Answer 404 EmptyString) [] eq_refl eq_refl)
      as (_ & _ & _ & H).
    rewrite (H EmptyString eq_refl). reflexivity.
Defined.

(** An answer without any connection stops the run with an
    [IndexError]. *)
Lemma incomplete_response_fails_witness :
  loads (Json := RefJson.json) (RefJson.write Sample.unconnected)
  = inr Sample.unconnected /\
  incomplete Sample.unconnected /\
  Device.from_json (J := RefJson.json) (RefJson.write Sample.unconnected)
  = inl IndexError /\
  main (A := scripted) (J := RefJson.json) Sample.wanted
    (start [Answer 200 (RefJson.write Sample.unconnected)])
  = (inl IndexError, Sample.finish [] [Sample.GET]).
Proof.
  assert (Hl : loads (Json := RefJson.json)
                 (RefJson.write Sample.unconnected)
               = inr Sample.unconnected) by (vm_compute; reflexivity).
  assert (Hi : incomplete Sample.unconnected)
    by (apply empty_connections; reflexivity).
  split; [exact Hl | split; [exact Hi |]].
  destruct (incomplete_response_fails (A := scripted) (J := RefJson.json)
              (RefJson.write Sample.unconnected) Sample.unconnected Hl Hi)
    as (e & _ & Hf & _ & Hm).
  assert (He : e = IndexError).
  { assert (Hc : Device.from_json (J := RefJson.json)
                   (RefJson.write Sample.unconnected) = inl IndexError)
      by (vm_compute; reflexivity).
    rewrite Hc in Hf. injection Hf as <-. reflexivity. }
  subst e. split; [exact Hf |].
  exact (Hm Sample.wanted
           (start [Answer 200 (RefJson.write Sample.unconnected)])
           200 [] eq_refl eq_refl eq_refl).
Defined.

End MainFacts.


(* ===================================================================== *)
(** * More on [DeviceAPI]: [update], [delete] and [__urlopen__] *)
(* ===================================================================== *)

Module DeviceAPIMore.

Import DeviceAPI.

Section WithLibraries.
Context {A : Archive} {J : Json}.

(** X1. [update] sends one PUT with the serialized device as its body. A
    success returns [True]; a 404 (the device is gone) returns [False]
    and raises nothing; any other status raises the [HTTPError] of that
    status, and a request without an answer raises [URLError]. *)
Theorem update_answers (api : t) (device : Device.t) (w : world)
    (r : Reply) (a : server) :
  let request := __request__ api (Some (Device.to_json device)) "PUT" in
  respond request (archive w) = (r, a) ->
  get_method request = "PUT" /\
  req_data request = Some (Device.to_json device) /\
  (forall status content, r = Answer status content ->
     success status = true ->
     update api device w = (inr true, after w request a)) /\
  (forall content, r = Answer 404 content ->
     update api device w = (inr false, after w request a)) /\
  (forall status content, r = Answer status content ->
     success status = false -> status <> 404 ->
     update api device w = (inl (HTTPError status), after w request a)) /\
  (r = NoAnswer ->
     update api device w = (inl URLError, after w request a)).
Proof.
  intros request H. split; [reflexivity | split; [reflexivity |]].
  rewrite (DeviceAPIFacts.update_outcomes api device w r a H). fold request.
  repeat split.
  - intros status content -> Hs. rewrite Hs. reflexivity.
  - intros content ->. reflexivity.
  - intros status content -> Hs Hn. rewrite Hs.
    apply Z.eqb_neq in Hn. rewrite Hn. reflexivity.
  - intros ->. reflexivity.
Qed.

(** X2. [delete] sends one DELETE without a body. A success returns
    [True]; a 404 returns [False] and raises nothing; any other status
    raises the [HTTPError] of that status, and a request without an
    answer raises [URLError]. *)
Theorem delete_answers (api : t) (w : world) (r : Reply) (a : server) :
  let request := __request__ api None "DELETE" in
  respond request (archive w) = (r, a) ->
  get_method request = "DELETE" /\
  req_data request = None /\
  (forall status content, r = Answer status content ->
     success status = true ->
     delete api w = (inr true, after w request a)) /\
  (forall content, r = Answer 404 content ->
     delete api w = (inr false, after w request a)) /\
  (forall status content, r = Answer status content ->
     success status = false -> status <> 404 ->
     delete api w = (inl (HTTPError status), after w request a)) /\
  (r = NoAnswer -> delete api w = (inl URLError, after w request a)).
Proof.
  intros request H. split; [reflexivity | split; [reflexivity |]].
  rewrite (DeviceAPIFacts.delete_outcomes api w r a H). fold request.
  repeat split.
  - intros status content -> Hs. rewrite Hs. reflexivity.
  - intros content ->. reflexivity.
  - intros status content -> Hs Hn. rewrite Hs.
    apply Z.eqb_neq in Hn. rewrite Hn. reflexivity.
  - intros ->. reflexivity.
Qed.

(** X3. [__urlopen__] sends the request exactly once and swallows one
    thing only: it returns [None] exactly when the answer has a status
    that is not a success and equals [ignore_error]. Without an
    [ignore_error] every such status is raised, and a request without an
    answer raises [URLError] whatever [ignore_error] is. *)
Theorem urlopen_ignores_one_status (api : t) (request : Request)
    (ignore_error : option Z) (w : world) (r : Reply) (a : server) :
  respond request (archive w) = (r, a) ->
  snd (__urlopen__ api request ignore_error w) = after w request a /\
  (fst (__urlopen__ api request ignore_error w) = inr None <->
   exists status content,
     r = Answer status content /\ success status = false /\
     ignore_error = Some status) /\
  (ignore_error = None ->
   forall status content, r = Answer status content ->
     success status = false ->
     fst (__urlopen__ api request ignore_error w) = inl (HTTPError status)) /\
  (r = NoAnswer ->
   fst (__urlopen__ api request ignore_error w) = inl URLError).
Proof.
  intros H.
  rewrite (DeviceAPIFacts.urlopen_run api request ignore_error w r a H).
  cbn [fst snd]. split; [reflexivity |]. repeat split.
  - destruct r as [status content |]; [| discriminate].
    destruct (success status) eqn:Hs; [discriminate |].
    destruct ignore_error as [c |]; cbn; [| discriminate].
    destruct (Z.eqb_spec status c) as [-> | Hn]; [| discriminate].
    intros _. exists c, content. auto.
  - intros (status & content & -> & Hs & ->). rewrite Hs. cbn.
    rewrite Z.eqb_refl. reflexivity.
  - intros -> status content -> Hs. rewrite Hs. reflexivity.
  - intros ->. reflexivity.
Qed.

End WithLibraries.

Lemma update_answers_witness :
  update (A := scripted) (J := RefJson.json) Sample.api Sample.device
    (start [Answer 204 EmptyString])
  = (inr true, Sample.finish [] [Sample.PUT]) /\
  update (A := scripted) (J := RefJson.json) Sample.api Sample.device
    (start [Answer 404 EmptyString])
  = (inr false, Sample.finish [] [Sample.PUT]) /\
  update (A := scripted) (J := RefJson.json) Sample.api Sample.device
    (start [Answer 500 EmptyString])
  = (inl (HTTPError 500), Sample.finish [] [Sample.PUT]) /\
  update (A := scripted) (J := RefJson.json) Sample.api Sample.device
    (start [])
  = (inl URLError, Sample.finish [] [Sample.PUT]).
Proof.
  split; [| split; [| split]].
  - destruct (update_answers (A := scripted) (J := RefJson.json)
                Sample.api Sample.device (start [Answer 204 EmptyString])
                (Answer 204 EmptyString) [] eq_refl)
      as (_ & _ & H & _).
    rewrite (H 204 EmptyString eq_refl eq_refl). reflexivity.
  - destruct (update_answers (A := scripted) (J := RefJson.json)
                Sample.api Sample.device (start [Answer 404 EmptyString])
                (Answer 404 EmptyString) [] eq_refl)
      as (_ & _ & _ & H & _).
    rewrite (H _ eq_refl). reflexivity.
  - destruct (update_answers (A := scripted) (J := RefJson.json)
                Sample.api Sample.device (start [Answer 500 EmptyString])
                (Answer 500 EmptyString) [] eq_refl)
      as (_ & _ & _ & _ & H & _).
    rewrite (H 500 EmptyString eq_refl eq_refl ltac:(lia)). reflexivity.
  - destruct (update_answers (A := scripted) (J := RefJson.json)
                Sample.api Sample.device (start []) NoAnswer [] eq_refl)
      as (_ & _ & _ & _ & _ & H).
    rewrite (H eq_refl). reflexivity.
Defined.

Lemma delete_answers_witness :
  delete (A := scripted) Sample.api
    (start [Answer 204 EmptyString])
  = (inr true, Sample.finish [] [Sample.DELETE]) /\
  delete (A := scripted) Sample.api
    (start [Answer 404 EmptyString])
  = (inr false, Sample.finish [] [Sample.DELETE]) /\
  delete (A := scripted) Sample.api
    (start [Answer 403 EmptyString])
  = (inl (HTTPError 403), Sample.finish [] [Sample.DELETE]) /\
  delete (A := scripted) Sample.api (start [])
  = (inl URLError, Sample.finish [] [Sample.DELETE]).
Proof.
  split; [| split; [| split]].
  - destruct (delete_answers (A := scripted)
                Sample.api (start [Answer 204 EmptyString])
                (Answer 204 EmptyString) [] eq_refl)
      as (_ & _ & H & _).
    rewrite (H 204 EmptyString eq_refl eq_refl). reflexivity.
  - destruct (delete_answers (A := scripted)
                Sample.api (start [Answer 404 EmptyString])
                (Answer 404 EmptyString) [] eq_refl)
      as (_ & _ & _ & H & _).
    rewrite (H _ eq_refl). reflexivity.
  - destruct (delete_answers (A := scripted)
                Sample.api (start [Answer 403 EmptyString])
                (Answer 403 EmptyString) [] eq_refl)
      as (_ & _ & _ & _ & H & _).
    rewrite (H 403 EmptyString eq_refl eq_refl ltac:(lia)). reflexivity.
  - destruct (delete_answers (A := scripted)
                Sample.api (start []) NoAnswer [] eq_refl)
      as (_ & _ & _ & _ & _ & H).
    rewrite (H eq_refl). reflexivity.
Defined.

(** A 404 is swallowed when it is the status to ignore, and raised when
    the status to ignore is 409 or when there is none. *)
Lemma urlopen_ignores_one_status_witness :
  __urlopen__ (A := scripted) Sample.api Sample.GET (Some 404)
    (start [Answer 404 EmptyString])
  = (inr None, Sample.finish [] [Sample.GET]) /\
  fst (__urlopen__ (A := scripted) Sample.api Sample.GET (Some 409)
         (start [Answer 404 EmptyString])) <> inr None /\
  fst (__urlopen__ (A := scripted) Sample.api Sample.GET None
         (start [Answer 404 EmptyString])) = inl (HTTPError 404).
Proof.
  split; [| split].
  - destruct (urlopen_ignores_one_status (A := scripted) Sample.api
                Sample.GET (Some 404) (start [Answer 404 EmptyString])
                (Answer 404 EmptyString) [] eq_refl) as (Hw & Hn & _).
    apply injective_projections; [cbn [fst] | exact Hw].
    apply Hn. exists 404, EmptyString. auto.
  - destruct (urlopen_ignores_one_status (A := scripted) Sample.api
                Sample.GET (Some 409) (start [Answer 404 EmptyString])
                (Answer 404 EmptyString) [] eq_refl) as (_ & Hn & _).
    intros H. apply Hn in H. destruct H as (status & content & H1 & _ & H2).
    injection H1 as <- _. discriminate H2.
  - destruct (urlopen_ignores_one_status (A := scripted) Sample.api
                Sample.GET None (start [Answer 404 EmptyString])
                (Answer 404 EmptyString) [] eq_refl) as (_ & _ & H & _).
    exact (H eq_refl 404 EmptyString eq_refl eq_refl).
Defined.

End DeviceAPIMore.


(* ===================================================================== *)
(** * More on [Device.from_json]: which exception, and when *)
(* ===================================================================== *)

Module ParsingMore.

Import Device.

Section WithJson.
Context {J : Json}.

(** X12. A JSON text whose value is not an object (an array, a string, a
    number, [true], [false], [null]) makes [from_json] raise [TypeError]:
    the first subscript, by the key of the device name, fails on it. *)
Theorem from_json_not_an_object (s : string) (data : pyval) :
  loads s = inr data ->
  (forall d, data <> PDict d) ->
  from_json s = inl TypeError.
Proof.
  intros Hl Hd. unfold from_json. rewrite Hl. cbn [bindE].
  destruct data; try reflexivity.
  exfalso. exact (Hd d eq_refl).
Qed.

(** X13. The exception of [from_json] on an object is that of the first
    subscript that fails, in the order name, hostname, port, AE title: a
    missing device name gives [KeyError] on its key whatever else is
    wrong; then a missing connection member gives [KeyError], an empty
    connection array [IndexError], a first connection without hostname or
    without port [KeyError] on that key; and only then the
    application-entity member, its first entry and its AE title are
    looked at. *)
Theorem first_failure_decides (s : string) (d : list (string * pyval)) :
  loads s = inr (PDict d) ->
  (assoc "dicomDeviceName" d = None ->
   from_json s = inl (KeyError (PStr "dicomDeviceName"))) /\
  (forall n, assoc "dicomDeviceName" d = Some n ->
   (assoc "dicomNetworkConnection" d = None ->
    from_json s = inl (KeyError (PStr "dicomNetworkConnection"))) /\
   (assoc "dicomNetworkConnection" d = Some (PList []) ->
    from_json s = inl IndexError) /\
   (forall c cs,
    assoc "dicomNetworkConnection" d = Some (PList (PDict c :: cs)) ->
    (assoc "dicomHostname" c = None ->
     from_json s = inl (KeyError (PStr "dicomHostname"))) /\
    (forall h, assoc "dicomHostname" c = Some h ->
     (assoc "dicomPort" c = None ->
      from_json s = inl (KeyError (PStr "dicomPort"))) /\
     (forall q, assoc "dicomPort" c = Some q ->
      (assoc "dicomNetworkAE" d = None ->
       from_json s = inl (KeyError (PStr "dicomNetworkAE"))) /\
      (assoc "dicomNetworkAE" d = Some (PList []) ->
       from_json s = inl IndexError) /\
      (forall e es,
       assoc "dicomNetworkAE" d = Some (PList (PDict e :: es)) ->
       assoc "dicomAETitle" e = None ->
       from_json s = inl (KeyError (PStr "dicomAETitle"))))))).
Proof.
  intros Hl. unfold from_json. rewrite Hl. cbn [bindE].
  unfold of_data. cbn [getitem].
  split.
  { intros ->. reflexivity. }
  intros n ->. cbn [bindE].
  split; [intros ->; reflexivity |].
  split; [intros ->; reflexivity |].
  intros c cs ->. cbn.
  split; [intros ->; reflexivity |].
  intros h ->. cbn.
  split; [intros ->; reflexivity |].
  intros q ->. cbn.
  split; [intros ->; reflexivity |].
  split; [intros ->; reflexivity |].
  intros e es -> He. cbn. rewrite He. reflexivity.
Qed.

End WithJson.

(** An array and [null] in place of the object. *)
Lemma from_json_not_an_object_witness :
  from_json (J := RefJson.json) (RefJson.write (PList [Sample.unconnected]))
  = inl TypeError /\
  from_json (J := RefJson.json) (RefJson.write PNone) = inl TypeError.
Proof.
  split.
  - apply (from_json_not_an_object (J := RefJson.json) _
             (PList [Sample.unconnected])).
    + vm_compute; reflexivity.
    + intros d; discriminate.
  - apply (from_json_not_an_object (J := RefJson.json) _ PNone).
    + vm_compute; reflexivity.
    + intros d; discriminate.
Defined.

(** Without a name the empty connection array is not reached; with a name
    it is. *)
Lemma first_failure_decides_witness :
  from_json (J := RefJson.json) (RefJson.write Sample.nameless)
  = inl (KeyError (PStr "dicomDeviceName")) /\
  from_json (J := RefJson.json) (RefJson.write Sample.unconnected)
  = inl IndexError.
Proof.
  split.
  - assert (Hl : loads (Json := RefJson.json) (RefJson.write Sample.nameless)
                 = inr Sample.nameless) by (vm_compute; reflexivity).
    destruct (first_failure_decides (J := RefJson.json) _ _ Hl) as (H & _).
    exact (H eq_refl).
  - assert (Hl : loads (Json := RefJson.json)
                   (RefJson.write Sample.unconnected)
                 = inr Sample.unconnected) by (vm_compute; reflexivity).
    destruct (first_failure_decides (J := RefJson.json) _ _ Hl) as (_ & H).
    destruct (H (PUnicode "workstation23") eq_refl) as (_ & H' & _).
    exact (H' eq_refl).
Defined.

End ParsingMore.

(* ===================================================================== *)
(** * More on [main]: whole runs *)
(* ===================================================================== *)

Module MainMore.

Section WithLibraries.
Context {A : Archive} {J : Json}.

(** A write followed by the report, by the answer to the write. *)
Lemma create_then_report (p : params) (w : world) (r : Reply) (a : server) :
  respond (request_of p "POST") (archive w) = (r, a) ->
  bind (DeviceAPI.create (DeviceAPI.__init__ (api_url p) (name p))
          (expected_device p))
       (fun c => ret (report p c)) w =
  (match r with
   | Answer status _ =>
       if success status then inr (report p true)
       else if status =? 409 then inr (report p false)
       else inl (HTTPError status)
   | NoAnswer => inl URLError
   end, after w (request_of p "POST") a).
Proof.
  intros H. unfold bind.
  rewrite (DeviceAPIFacts.create_run _ _ w r a H).
  destruct r as [status content |]; [| reflexivity].
  destruct (success status); [reflexivity |].
  destruct (status =? 409); reflexivity.
Qed.

Lemma update_then_report (p : params) (w : world) (r : Reply) (a : server) :
  respond (request_of p "PUT") (archive w) = (r, a) ->
  bind (DeviceAPI.update (DeviceAPI.__init__ (api_url p) (name p))
          (expected_device p))
       (fun c => ret (report p c)) w =
  (match r with
   | Answer status _ =>
       if success status then inr (report p true)
       else if status =? 404 then inr (report p false)
       else inl (HTTPError status)
   | NoAnswer => inl URLError
   end, after w (request_of p "PUT") a).
Proof.
  intros H. unfold bind.
  rewrite (DeviceAPIFacts.update_outcomes _ _ w r a H).
  destruct r as [status content |]; [| reflexivity].
  destruct (success status); [reflexivity |].
  destruct (status =? 404); reflexivity.
Qed.

Lemma delete_then_report (p : params) (w : world) (r : Reply) (a : server) :
  respond (request_of p "DELETE") (archive w) = (r, a) ->
  bind (DeviceAPI.delete (DeviceAPI.__init__ (api_url p) (name p)))
       (fun c => ret (report p c)) w =
  (match r with
   | Answer status _ =>
       if success status then inr (report p true)
       else if status =? 404 then inr (report p false)
       else inl (HTTPError status)
   | NoAnswer => inl URLError
   end, after w (request_of p "DELETE") a).
Proof.
  intros H. unfold bind.
  rewrite (DeviceAPIFacts.delete_outcomes _ w r a H).
  destruct r as [status content |]; [| reflexivity].
  destruct (success status); [reflexivity |].
  destruct (status =? 404); reflexivity.
Qed.

(** A run with [state=present], by the answer to its GET. *)
Lemma main_after_read (p : params) (w : world) (r : Reply) (a : server) :
  state p = "present" ->
  respond (request_of p "GET") (archive w) = (r, a) ->
  main p w =
  match r with
  | Answer status content =>
      if success status then
        match Device.from_json content with
        | inr actual =>
            if Device.__eq__ actual (expected_device p) then
              (inr (report p false), after w (request_of p "GET") a)
            else
              bind (DeviceAPI.update (DeviceAPI.__init__ (api_url p) (name p))
                      (expected_device p))
                   (fun c => ret (report p c))
                   (after w (request_of p "GET") a)
        | inl e => (inl e, after w (request_of p "GET") a)
        end
      else if status =? 404 then
        bind (DeviceAPI.create (DeviceAPI.__init__ (api_url p) (name p))
                (expected_device p))
             (fun c => ret (report p c))
             (after w (request_of p "GET") a)
      else (inl (HTTPError status), after w (request_of p "GET") a)
  | NoAnswer => (inl URLError, after w (request_of p "GET") a)
  end.
Proof.
  intros Hs H. rewrite (MainFacts.main_present p w Hs).
  unfold bind at 1 2.
  rewrite (DeviceAPIFacts.read_run _ w r a H).
  destruct r as [status content |]; [| reflexivity].
  destruct (success status).
  - destruct (Device.from_json content) as [e | actual]; [reflexivity |].
    unfold Device.__ne__.
    destruct (Device.__eq__ actual (expected_device p)); reflexivity.
  - destruct (status =? 404); reflexivity.
Qed.

(** The requests of a run, by the value of [state]. *)
Lemma main_trace (p : params) (w : world) :
  exists new,
    sent (snd (main p w)) = (sent w ++ new)%list /\
    ((state p = "present" /\
      In new [[request_of p "GET"];
              [request_of p "GET"; request_of p "POST"];
              [request_of p "GET"; request_of p "PUT"]]) \/
     (state p = "absent" /\ new = [request_of p "DELETE"]) \/
     (state p <> "present" /\ state p <> "absent" /\ new = [] /\
      main p w = (inr (report p false), w))).
Proof.
  destruct (String.eqb_spec (state p) "present") as [Hp | Hp].
  - destruct (respond (request_of p "GET") (archive w)) as [r a] eqn:Hr.
    rewrite (main_after_read p w r a Hp Hr).
    set (w1 := after w (request_of p "GET") a).
    assert (Hget : forall x : exn + exit_json, exists new,
              sent (snd (x, w1)) = (sent w ++ new)%list /\
              ((state p = "present" /\
                In new [[request_of p "GET"];
                        [request_of p "GET"; request_of p "POST"];
                        [request_of p "GET"; request_of p "PUT"]]) \/
               (state p = "absent" /\ new = [request_of p "DELETE"]) \/
               (state p <> "present" /\ state p <> "absent" /\ new = [] /\
                (x, w1) = (inr (report p false), w)))).
    { intros x. exists [request_of p "GET"].
      split; [reflexivity | left; split; [exact Hp | left; reflexivity]]. }
    destruct r as [status content |]; [| apply Hget].
    destruct (success status).
    + destruct (Device.from_json content) as [e | actual]; [apply Hget |].
      destruct (Device.__eq__ actual (expected_device p)); [apply Hget |].
      destruct (respond (request_of p "PUT") (archive w1)) as [r' a'] eqn:Hr'.
      rewrite (update_then_report p w1 r' a' Hr').
      exists [request_of p "GET"; request_of p "PUT"].
      split; [cbn; rewrite <- app_assoc; reflexivity |].
      left. split; [exact Hp | cbn; auto].
    + destruct (status =? 404); [| apply Hget].
      destruct (respond (request_of p "POST") (archive w1)) as [r' a'] eqn:Hr'.
      rewrite (create_then_report p w1 r' a' Hr').
      exists [request_of p "GET"; request_of p "POST"].
      split; [cbn; rewrite <- app_assoc; reflexivity |].
      left. split; [exact Hp | cbn; auto].
  - destruct (String.eqb_spec (state p) "absent") as [Ha | Ha].
    + destruct (respond (request_of p "DELETE") (archive w)) as [r a] eqn:Hr.
      rewrite (MainFacts.main_absent p w Ha).
      rewrite (delete_then_report p w r a Hr).
      exists [request_of p "DELETE"]. split; [reflexivity |].
      right. left. auto.
    + exists []. rewrite (MainFacts.main_other p w Hp Ha).
      split; [cbn; rewrite app_nil_r; reflexivity |].
      right. right. auto.
Qed.

(** X4. Which requests a run sends depends on [state] only in this way:
    with [present] it starts with a GET, sends at most a POST or a PUT
    after it and never a DELETE; with [absent] it sends a DELETE and
    nothing else, so no GET; with any other value it sends nothing and
    reports [changed = False]. *)
Theorem requests_by_state (p : params) (w : world) :
  exists new,
    sent (snd (main p w)) = (sent w ++ new)%list /\
    (state p = "present" ->
     In new [[request_of p "GET"];
             [request_of p "GET"; request_of p "POST"];
             [request_of p "GET"; request_of p "PUT"]]) /\
    (state p = "absent" -> new = [request_of p "DELETE"]) /\
    (state p <> "present" -> state p <> "absent" ->
     new = [] /\ main p w = (inr (report p false), w)).
Proof.
  destruct (main_trace p w) as (new & Hsent & Hnew).
  exists new. split; [exact Hsent |].
  destruct Hnew as [(Hp & Hin) | [(Ha & Hd) | (Hp & Ha & Hn & Hm)]].
  - split; [intros _; exact Hin |].
    split; [intros Ha; rewrite Hp in Ha; discriminate |].
    intros Hn; contradiction.
  - split; [intros Hp; rewrite Ha in Hp; discriminate |].
    split; [intros _; exact Hd |].
    intros _ Hn; contradiction.
  - split; [intros H; contradiction |].
    split; [intros H; contradiction | auto].
Qed.

(** X5. Every request of a run goes to the one URL
    [api_url + "devices/" + name] (no separator is added after [api_url],
    and the name is not encoded) and carries the header
    [Content-Type: application/json]; a GET and a DELETE have no body, a
    POST and a PUT have the serialized desired device as their body. *)
Theorem requests_shape (p : params) (w : world) :
  exists new,
    sent (snd (main p w)) = (sent w ++ new)%list /\
    Forall (fun r =>
      req_url r = resource p /\
      req_headers r = [("Content-Type", "application/json")] /\
      req_data r =
        if ((get_method r =? "POST") || (get_method r =? "PUT"))%string
        then Some (Device.to_json (expected_device p))
        else None) new.
Proof.
  destruct (main_trace p w) as (new & Hsent & Hnew).
  exists new. split; [exact Hsent |].
  assert (Hall : forall m, In m ["GET"; "POST"; "PUT"; "DELETE"] ->
            req_url (request_of p m) = resource p /\
            req_headers (request_of p m)
            = [("Content-Type", "application/json")] /\
            req_data (request_of p m) =
              if ((get_method (request_of p m) =? "POST") ||
                  (get_method (request_of p m) =? "PUT"))%string
              then Some (Device.to_json (expected_device p))
              else None).
  { intros m Hm. cbn in Hm.
    destruct Hm as [<- | [<- | [<- | [<- | []]]]];
      repeat split; reflexivity. }
  destruct Hnew as [(_ & Hin) | [(_ & ->) | (_ & _ & -> & _)]].
  - cbn in Hin. destruct Hin as [<- | [<- | [<- | []]]];
      repeat constructor; apply Hall; cbn; auto.
  - repeat constructor; apply Hall; cbn; auto.
  - constructor.
Qed.

(** X6. A read that fails ends the run with that failure, after the GET
    and before any write: a status that is neither a success nor 404
    raises its [HTTPError], a request without an answer raises
    [URLError], and a successful answer whose body [from_json] rejects
    raises the exception of [from_json]. Nothing is retried. *)
Theorem failed_read_stops (p : params) (w : world) (r : Reply) (a : server) :
  state p = "present" ->
  respond (request_of p "GET") (archive w) = (r, a) ->
  (forall status content, r = Answer status content ->
     success status = false -> status <> 404 ->
     main p w = (inl (HTTPError status), after w (request_of p "GET") a)) /\
  (r = NoAnswer ->
     main p w = (inl URLError, after w (request_of p "GET") a)) /\
  (forall status content e, r = Answer status content ->
     success status = true -> Device.from_json content = inl e ->
     main p w = (inl e, after w (request_of p "GET") a)).
Proof.
  intros Hs H. rewrite (main_after_read p w r a Hs H).
  split; [| split].
  - intros status content -> Hok Hn. rewrite Hok.
    apply Z.eqb_neq in Hn. rewrite Hn. reflexivity.
  - intros ->. reflexivity.
  - intros status content e -> Hok He. rewrite Hok, He. reflexivity.
Qed.

(** X7. When the GET is answered 404, the run sends a POST next and ends
    by its answer: a success reports [changed = True]; a 409 (the device
    has appeared in the meantime) reports [changed = False] without an
    error; any other status raises its [HTTPError] and no answer raises
    [URLError]. No third request is sent. *)
Theorem create_when_absent (p : params) (w : world) (content : string)
    (a : server) (r' : Reply) (a' : server) :
  state p = "present" ->
  respond (request_of p "GET") (archive w) = (Answer 404 content, a) ->
  respond (request_of p "POST") a = (r', a') ->
  let w2 := after (after w (request_of p "GET") a) (request_of p "POST") a' in
  (forall status c, r' = Answer status c -> success status = true ->
     main p w = (inr (report p true), w2)) /\
  (forall c, r' = Answer 409 c -> main p w = (inr (report p false), w2)) /\
  (forall status c, r' = Answer status c ->
     success status = false -> status <> 409 ->
     main p w = (inl (HTTPError status), w2)) /\
  (r' = NoAnswer -> main p w = (inl URLError, w2)).
Proof.
  intros Hs H H' w2. rewrite (main_after_read p w _ a Hs H).
  change (success 404) with false. change (404 =? 404) with true. cbv iota.
  rewrite (create_then_report p (after w (request_of p "GET") a) r' a' H').
  fold w2. split; [| split; [| split]].
  - intros status c -> Hok. rewrite Hok. reflexivity.
  - intros c ->. reflexivity.
  - intros status c -> Hok Hn. rewrite Hok.
    apply Z.eqb_neq in Hn. rewrite Hn. reflexivity.
  - intros ->. reflexivity.
Qed.

(** X8. When the GET returns a device that is not equal to the desired
    one, the run sends a PUT next and ends by its answer: a success
    reports [changed = True]; a 404 (the device has vanished in the
    meantime) reports [changed = False] without an error and without
    creating the device; any other status raises its [HTTPError] and no
    answer raises [URLError]. *)
Theorem update_when_differs (p : params) (w : world) (status : Z)
    (content : string) (a : server) (actual : Device.t)
    (r' : Reply) (a' : server) :
  state p = "present" ->
  respond (request_of p "GET") (archive w) = (Answer status content, a) ->
  success status = true ->
  Device.from_json content = inr actual ->
  Device.__eq__ actual (expected_device p) = false ->
  respond (request_of p "PUT") a = (r', a') ->
  let w2 := after (after w (request_of p "GET") a) (request_of p "PUT") a' in
  (forall status' c, r' = Answer status' c -> success status' = true ->
     main p w = (inr (report p true), w2)) /\
  (forall c, r' = Answer 404 c -> main p w = (inr (report p false), w2)) /\
  (forall status' c, r' = Answer status' c ->
     success status' = false -> status' <> 404 ->
     main p w = (inl (HTTPError status'), w2)) /\
  (r' = NoAnswer -> main p w = (inl URLError, w2)).
Proof.
  intros Hs H Hok Hf He H' w2. rewrite (main_after_read p w _ a Hs H).
  rewrite Hok, Hf, He.
  rewrite (update_then_report p (after w (request_of p "GET") a) r' a' H').
  fold w2. split; [| split; [| split]].
  - intros status' c -> Hok'. rewrite Hok'. reflexivity.
  - intros c ->. reflexivity.
  - intros status' c -> Hok' Hn. rewrite Hok'.
    apply Z.eqb_neq in Hn. rewrite Hn. reflexivity.
  - intros ->. reflexivity.
Qed.

Lemma expected_device_typed (p : params) : typed (expected_device p).
Proof. exists (name p), (host p), (port p), (aetitle p). reflexivity. Qed.

(** The desired device against a device read with three [unicode] and
    an [int]. *)
Lemma eq_read_expected (p : params) (n h : string) (q : Z) (t : string) :
  Device.__eq__
    (Device.__init__ (PUnicode n) (PUnicode h) (PInt q) (PUnicode t))
    (expected_device p) =
  (is_ascii (name p) && String.eqb n (name p)) &&
  (is_ascii (host p) && String.eqb h (host p)) &&
  (q =? port p) &&
  (is_ascii (aetitle p) && String.eqb t (aetitle p)).
Proof. rewrite DeviceFacts.eq_fields. reflexivity. Qed.

Lemma eq_reread_expected (p : params) :
  Device.__eq__ (reread (expected_device p)) (expected_device p)
  = ascii_params p.
Proof.
  unfold reread, expected_device. cbn [Device.name Device.host Device.port
    Device.aetitle decoded].
  rewrite (eq_read_expected p). unfold ascii_params.
  rewrite !String.eqb_refl, Z.eqb_refl, !andb_true_r. reflexivity.
Qed.

(** X9. Whether a device that the archive holds exactly as the module
    writes it is recognised depends on the string parameters: when the
    GET is answered with the text that [to_json] gives for the desired
    device, and [json.loads] reads that text back with its strings as
    [unicode], a run whose name, host and AE title are ASCII sends
    nothing more and reports [changed = False]; a run in which one of
    them has a byte from 128 on goes on with a PUT, every time. *)
Theorem written_is_recognised (p : params) (w : world) (status : Z)
    (a : server) :
  state p = "present" ->
  loads (dumps (Device.payload (expected_device p)))
  = inr (decoded (Device.payload (expected_device p))) ->
  respond (request_of p "GET") (archive w)
  = (Answer status (Device.to_json (expected_device p)), a) ->
  success status = true ->
  (ascii_params p = true ->
   main p w = (inr (report p false), after w (request_of p "GET") a)) /\
  (ascii_params p = false ->
   main p w =
   bind (DeviceAPI.update (DeviceAPI.__init__ (api_url p) (name p))
           (expected_device p))
        (fun c => ret (report p c))
        (after w (request_of p "GET") a)).
Proof.
  intros Hs Hl H Hok. rewrite (main_after_read p w _ a Hs H), Hok.
  assert (Hf : Device.from_json (Device.to_json (expected_device p))
               = inr (reread (expected_device p))).
  { unfold Device.from_json, Device.to_json. rewrite Hl. cbn [bindE].
    apply DeviceFacts.of_data_decoded_payload. }
  rewrite Hf, eq_reread_expected.
  split; intros ->; reflexivity.
Qed.

Lemma py_eq_not_str (v : pyval) (s : string) :
  is_str v = false -> py_eq v (PStr s) = false.
Proof. destruct v; cbn; congruence. Qed.

Lemma py_eq_not_int (v : pyval) (z : Z) :
  is_int_or_bool v = false -> py_eq v (PInt z) = false.
Proof. destruct v; cbn; congruence. Qed.

(** X10. On a well-formed answer with three strings and an integer, the
    strings being [unicode] as [json.loads] returns them, the run
    depends on the four values and on the string parameters being ASCII:
    when the values are the desired name, host, port and AE title and
    these parameters are ASCII, nothing more is sent and [changed] is
    [False]; when any value differs, or when a string parameter has a
    byte from 128 on, the run goes on with the PUT of the desired
    device. *)
Theorem reconciles_on_four_values (p : params) (w : world) (status : Z)
    (s : string) (a : server) (data : pyval) (n h : string) (q : Z)
    (t : string) :
  state p = "present" ->
  respond (request_of p "GET") (archive w) = (Answer status s, a) ->
  success status = true ->
  loads s = inr data ->
  well_formed data (PUnicode n) (PUnicode h) (PInt q) (PUnicode t) ->
  ((n, h, q, t) = (name p, host p, port p, aetitle p) ->
   ascii_params p = true ->
   main p w = (inr (report p false), after w (request_of p "GET") a)) /\
  ((n, h, q, t) <> (name p, host p, port p, aetitle p) \/
   ascii_params p = false ->
   main p w =
   bind (DeviceAPI.update (DeviceAPI.__init__ (api_url p) (name p))
           (expected_device p))
        (fun c => ret (report p c))
        (after w (request_of p "GET") a)).
Proof.
  intros Hs H Hok Hl Hw. rewrite (main_after_read p w _ a Hs H), Hok.
  unfold Device.from_json. rewrite Hl. cbn [bindE].
  rewrite (DeviceFacts.of_data_well_formed _ _ _ _ _ Hw).
  rewrite eq_read_expected.
  split.
  - intros E Ha. injection E as -> -> -> ->.
    unfold ascii_params in Ha.
    apply andb_true_iff in Ha as [Ha Ht].
    apply andb_true_iff in Ha as [Hn Hh].
    rewrite Hn, Hh, Ht, !String.eqb_refl, Z.eqb_refl. reflexivity.
  - intros E.
    destruct ((is_ascii (name p) && String.eqb n (name p)) &&
              (is_ascii (host p) && String.eqb h (host p)) &&
              (q =? port p) &&
              (is_ascii (aetitle p) && String.eqb t (aetitle p)))
      eqn:Heq; [| reflexivity].
    exfalso.
    apply andb_true_iff in Heq as [Heq Ht].
    apply andb_true_iff in Heq as [Heq Hq].
    apply andb_true_iff in Heq as [Hn Hh].
    apply andb_true_iff in Hn as [Hn Hn'].
    apply andb_true_iff in Hh as [Hh Hh'].
    apply andb_true_iff in Ht as [Ht Ht'].
    apply String.eqb_eq in Hn', Hh', Ht'. apply Z.eqb_eq in Hq.
    destruct E as [E | E].
    + apply E. subst. reflexivity.
    + unfold ascii_params in E. rewrite Hn, Hh, Ht in E. discriminate E.
Qed.

(** X11. [from_json] converts nothing and [main] compares with [==]: on
    a well-formed answer in which the name, the hostname or the AE title
    is not a string ([None], a [bool], an [int], a list or a dict), or
    the port is neither an [int] nor a [bool] (a string of digits, say),
    the device read never equals the desired one, so that every run goes
    on with a PUT. *)
Theorem other_type_never_equal (p : params) (w : world) (status : Z)
    (s : string) (a : server) (data n h q t : pyval) :
  state p = "present" ->
  respond (request_of p "GET") (archive w) = (Answer status s, a) ->
  success status = true ->
  loads s = inr data ->
  well_formed data n h q t ->
  is_str n && is_str h && is_int_or_bool q && is_str t = false ->
  main p w =
  bind (DeviceAPI.update (DeviceAPI.__init__ (api_url p) (name p))
          (expected_device p))
       (fun c => ret (report p c))
       (after w (request_of p "GET") a).
Proof.
  intros Hs H Hok Hl Hw Ht. rewrite (main_after_read p w _ a Hs H), Hok.
  unfold Device.from_json. rewrite Hl. cbn [bindE].
  rewrite (DeviceFacts.of_data_well_formed _ _ _ _ _ Hw).
  rewrite DeviceFacts.eq_fields.
  cbn [Device.name Device.host Device.port Device.aetitle expected_device].
  replace (py_eq n (PStr (name p)) && py_eq h (PStr (host p)) &&
           py_eq q (PInt (port p)) && py_eq t (PStr (aetitle p)))
    with false; [reflexivity |].
  symmetry.
  apply andb_false_iff in Ht as [Ht | Ht];
    [apply andb_false_iff in Ht as [Ht | Ht];
       [apply andb_false_iff in Ht as [Ht | Ht] |] |].
  - rewrite (py_eq_not_str _ _ Ht). reflexivity.
  - rewrite (py_eq_not_str _ _ Ht), andb_false_r. reflexivity.
  - rewrite (py_eq_not_int _ _ Ht), andb_false_r. reflexivity.
  - rewrite (py_eq_not_str _ _ Ht). apply andb_false_r.
Qed.

(** X14. A run that ends normally reports the name and the state it was
    given, and it reports [changed = True] only when it has sent a write:
    the last request of the run is then a POST, a PUT or a DELETE. *)
Theorem changed_means_written (p : params) (w : world) (out : exit_json)
    (w' : world) :
  main p w = (inr out, w') ->
  exit_name out = name p /\
  exit_state out = state p /\
  (changed out = true ->
   exists before req,
     sent w' = (sent w ++ before ++ [req])%list /\ is_write req = true).
Proof.
  assert (Hfalse : forall w1 : world,
            (@inr exn exit_json (report p false), w1) = (inr out, w') ->
            exit_name out = name p /\ exit_state out = state p /\
            (changed out = true ->
             exists before req,
               sent w' = (sent w ++ before ++ [req])%list /\
               is_write req = true)).
  { intros w1 [= <- <-]. repeat split. discriminate. }
  assert (Hwrite : forall m r a w1 (x : exn + exit_json),
            In m ["POST"; "PUT"; "DELETE"] ->
            (exists before, sent w1 = (sent w ++ before)%list) ->
            (x = inr (report p true) \/ x = inr (report p false) \/
             exists e, x = inl e) ->
            (x, after w1 (request_of p m) a) = (inr out, w') ->
            r = request_of p m ->
            exit_name out = name p /\ exit_state out = state p /\
            (changed out = true ->
             exists before req,
               sent w' = (sent w ++ before ++ [req])%list /\
               is_write req = true)).
  { intros m r a w1 x Hm (before & Hb) Hx [= -> <-] ->.
    destruct Hx as [[= ->] | [[= ->] | (e & [=])]].
    - repeat split. intros _. exists before, (request_of p m).
      split; [cbn; rewrite Hb, <- app_assoc; reflexivity |].
      cbn in Hm. destruct Hm as [<- | [<- | [<- | []]]]; reflexivity.
    - repeat split. discriminate. }
  assert (Hcases : forall status (c409 : Z),
            (if success status then @inr exn _ (report p true)
             else if status =? c409 then inr (report p false)
             else inl (HTTPError status))
            = inr (report p true) \/
            (if success status then @inr exn _ (report p true)
             else if status =? c409 then inr (report p false)
             else inl (HTTPError status))
            = inr (report p false) \/
            exists e,
              (if success status then @inr exn _ (report p true)
               else if status =? c409 then inr (report p false)
               else inl (HTTPError status)) = inl e).
  { intros status c409. destruct (success status); [auto |].
    destruct (status =? c409); eauto. }
  destruct (String.eqb_spec (state p) "present") as [Hp | Hp].
  - destruct (respond (request_of p "GET") (archive w)) as [r a] eqn:Hr.
    rewrite (main_after_read p w r a Hp Hr).
    set (w1 := after w (request_of p "GET") a).
    assert (Hw1 : exists before, sent w1 = (sent w ++ before)%list)
      by (exists [request_of p "GET"]; reflexivity).
    destruct r as [status content |]; [| discriminate].
    destruct (success status).
    + destruct (Device.from_json content) as [e | actual]; [discriminate |].
      destruct (Device.__eq__ actual (expected_device p)); [apply Hfalse |].
      destruct (respond (request_of p "PUT") (archive w1)) as [r' a'] eqn:Hr'.
      rewrite (update_then_report p w1 r' a' Hr').
      destruct r' as [st c |]; [| discriminate].
      intros H. apply (Hwrite "PUT" _ a' w1 _ ltac:(cbn; auto) Hw1
                         (Hcases st 404) H eq_refl).
    + destruct (status =? 404); [| discriminate].
      destruct (respond (request_of p "POST") (archive w1)) as [r' a'] eqn:Hr'.
      rewrite (create_then_report p w1 r' a' Hr').
      destruct r' as [st c |]; [| discriminate].
      intros H. apply (Hwrite "POST" _ a' w1 _ ltac:(cbn; auto) Hw1
                         (Hcases st 409) H eq_refl).
  - destruct (String.eqb_spec (state p) "absent") as [Ha | Ha].
    + destruct (respond (request_of p "DELETE") (archive w)) as [r a] eqn:Hr.
      rewrite (MainFacts.main_absent p w Ha).
      rewrite (delete_then_report p w r a Hr).
      destruct r as [st c |]; [| discriminate].
      intros H.
      apply (Hwrite "DELETE" _ a w _ ltac:(cbn; auto)
               ltac:(exists []; rewrite app_nil_r; reflexivity)
               (Hcases st 404) H eq_refl).
    + rewrite (MainFacts.main_other p w Hp Ha). apply Hfalse.
Qed.

(** X15. With [state=absent] a DELETE that fails ends the run with that
    failure and nothing else is sent: a status that is neither a success
    nor 404 raises its [HTTPError], a request without an answer raises
    [URLError]. *)
Theorem failed_delete_stops (p : params) (w : world) (r : Reply)
    (a : server) :
  state p = "absent" ->
  respond (request_of p "DELETE") (archive w) = (r, a) ->
  (forall status content, r = Answer status content ->
     success status = false -> status <> 404 ->
     main p w =
     (inl (HTTPError status), after w (request_of p "DELETE") a)) /\
  (r = NoAnswer ->
     main p w = (inl URLError, after w (request_of p "DELETE") a)).
Proof.
  intros Hs H. rewrite (MainFacts.main_absent p w Hs).
  rewrite (delete_then_report p w r a H). split.
  - intros status content -> Hok Hn. rewrite Hok.
    apply Z.eqb_neq in Hn. rewrite Hn. reflexivity.
  - intros ->. reflexivity.
Qed.

(** X16. On devices with three strings and an integer, the ones that
    [main] builds from its parameters, [==] holds exactly when the four
    values are the same, and [!=] exactly when some value differs. *)
Theorem eq_on_typed_devices (a b : Device.t) :
  typed a -> typed b ->
  (Device.__eq__ a b = true <-> a = b) /\
  (Device.__ne__ a b = true <-> a <> b).
Proof.
  intros Ha Hb. pose proof (DeviceFacts.eq_typed a b Ha Hb) as H.
  split; [exact H |]. unfold Device.__ne__.
  destruct (Device.__eq__ a b); cbn; split.
  - discriminate.
  - intros Hn. exfalso. apply Hn, H. reflexivity.
  - intros _ E. apply H in E. discriminate E.
  - reflexivity.
Qed.

End WithLibraries.

(** A forbidden deletion and an unreachable archive. *)
Lemma failed_delete_stops_witness :
  main (A := scripted) (J := RefJson.json) Sample.unwanted
    (start [Answer 403 EmptyString])
  = (inl (HTTPError 403), Sample.finish [] [Sample.DELETE]) /\
  main (A := scripted) (J := RefJson.json) Sample.unwanted (start [])
  = (inl URLError, Sample.finish [] [Sample.DELETE]).
Proof.
  split.
  - destruct (failed_delete_stops (A := scripted) (J := RefJson.json)
                Sample.unwanted (start [Answer 403 EmptyString])
                (Answer 403 EmptyString) [] eq_refl eq_refl) as (H & _).
    rewrite (H 403 EmptyString eq_refl eq_refl ltac:(lia)). reflexivity.
  - destruct (failed_delete_stops (A := scripted) (J := RefJson.json)
                Sample.unwanted (start []) NoAnswer [] eq_refl eq_refl)
      as (_ & H).
    rewrite (H eq_refl). reflexivity.
Defined.

(** The wanted device against itself and against the device on port 104. *)
Lemma eq_on_typed_devices_witness :
  Device.__eq__ Sample.device Sample.device = true /\
  Device.__ne__ Sample.device
    (Device.__init__ (PStr "workstation23") (PStr "192.168.0.100")
       (PInt 104) (PStr "HELLOWORLD")) = true.
Proof.
  split.
  - apply (eq_on_typed_devices Sample.device Sample.device
             (expected_device_typed Sample.wanted)
             (expected_device_typed Sample.wanted)).
    reflexivity.
  - apply (eq_on_typed_devices Sample.device _
             (expected_device_typed Sample.wanted)
             (ex_intro _ "workstation23"
                (ex_intro _ "192.168.0.100"
                   (ex_intro _ 104 (ex_intro _ "HELLOWORLD" eq_refl))))).
    intros E. discriminate E.
Defined.

(** A server error, an unreachable archive and a body that is not JSON. *)
Lemma failed_read_stops_witness :
  main (A := scripted) (J := RefJson.json) Sample.wanted
    (start [Answer 500 EmptyString; Answer 201 EmptyString])
  = (inl (HTTPError 500),
     Sample.finish [Answer 201 EmptyString] [Sample.GET]) /\
  main (A := scripted) (J := RefJson.json) Sample.wanted (start [])
  = (inl URLError, Sample.finish [] [Sample.GET]) /\
  main (A := scripted) (J := RefJson.json) Sample.wanted
    (start [Answer 200 "oops"; Answer 201 EmptyString])
  = (inl ValueError, Sample.finish [Answer 201 EmptyString] [Sample.GET]).
Proof.
  split; [| split].
  - destruct (failed_read_stops (A := scripted) (J := RefJson.json)
                Sample.wanted
                (start [Answer 500 EmptyString; Answer 201 EmptyString])
                (Answer 500 EmptyString) [Answer 201 EmptyString]
                eq_refl eq_refl) as (H & _).
    rewrite (H 500 EmptyString eq_refl eq_refl ltac:(lia)). reflexivity.
  - destruct (failed_read_stops (A := scripted) (J := RefJson.json)
                Sample.wanted (start []) NoAnswer [] eq_refl eq_refl)
      as (_ & H & _).
    rewrite (H eq_refl). reflexivity.
  - destruct (failed_read_stops (A := scripted) (J := RefJson.json)
                Sample.wanted
                (start [Answer 200 "oops"; Answer 201 EmptyString])
                (Answer 200 "oops") [Answer 201 EmptyString]
                eq_refl eq_refl) as (_ & _ & H).
    rewrite (H 200 "oops" ValueError eq_refl eq_refl eq_refl). reflexivity.
Defined.

(** Scenario A, scenario E and a refused creation. *)
Lemma create_when_absent_witness :
  main (A := scripted) (J := RefJson.json) Sample.wanted
    (start [Answer 404 EmptyString; Answer 201 EmptyString])
  = (inr (report Sample.wanted true),
     Sample.finish [] [Sample.GET; Sample.POST]) /\
  main (A := scripted) (J := RefJson.json) Sample.wanted
    (start [Answer 404 EmptyString; Answer 409 EmptyString])
  = (inr (report Sample.wanted false),
     Sample.finish [] [Sample.GET; Sample.POST]) /\
  main (A := scripted) (J := RefJson.json) Sample.wanted
    (start [Answer 404 EmptyString; Answer 403 EmptyString])
  = (inl (HTTPError 403), Sample.finish [] [Sample.GET; Sample.POST]).
Proof.
  split; [| split].
  - destruct (create_when_absent (A := scripted) (J := RefJson.json)
                Sample.wanted
                (start [Answer 404 EmptyString; Answer 201 EmptyString])
                EmptyString [Answer 201 EmptyString]
                (Answer 201 EmptyString) [] eq_refl eq_refl eq_refl)
      as (H & _).
    rewrite (H 201 EmptyString eq_refl eq_refl). reflexivity.
  - destruct (create_when_absent (A := scripted) (J := RefJson.json)
                Sample.wanted
                (start [Answer 404 EmptyString; Answer 409 EmptyString])
                EmptyString [Answer 409 EmptyString]
                (Answer 409 EmptyString) [] eq_refl eq_refl eq_refl)
      as (_ & H & _).
    rewrite (H EmptyString eq_refl). reflexivity.
  - destruct (create_when_absent (A := scripted) (J := RefJson.json)
                Sample.wanted
                (start [Answer 404 EmptyString; Answer 403 EmptyString])
                EmptyString [Answer 403 EmptyString]
                (Answer 403 EmptyString) [] eq_refl eq_refl eq_refl)
      as (_ & _ & H & _).
    rewrite (H 403 EmptyString eq_refl eq_refl ltac:(lia)). reflexivity.
Defined.

(** Scenario C, and the device vanishing between the GET and the PUT. *)
Lemma update_when_differs_witness :
  main (A := scripted) (J := RefJson.json) Sample.wanted
    (start [Answer 200 Sample.moved; Answer 204 EmptyString])
  = (inr (report Sample.wanted true),
     Sample.finish [] [Sample.GET; Sample.PUT]) /\
  main (A := scripted) (J := RefJson.json) Sample.wanted
    (start [Answer 200 Sample.moved; Answer 404 EmptyString])
  = (inr (report Sample.wanted false),
     Sample.finish [] [Sample.GET; Sample.PUT]).
Proof.
  assert (Hf : Device.from_json (J := RefJson.json) Sample.moved
               = inr Sample.elsewhere)
    by (vm_compute; reflexivity).
  split.
  - destruct (update_when_differs (A := scripted) (J := RefJson.json)
                Sample.wanted
                (start [Answer 200 Sample.moved; Answer 204 EmptyString])
                200 Sample.moved [Answer 204 EmptyString] _
                (Answer 204 EmptyString) []
                eq_refl eq_refl eq_refl Hf eq_refl eq_refl)
      as (H & _).
    rewrite (H 204 EmptyString eq_refl eq_refl). reflexivity.
  - destruct (update_when_differs (A := scripted) (J := RefJson.json)
                Sample.wanted
                (start [Answer 200 Sample.moved; Answer 404 EmptyString])
                200 Sample.moved [Answer 404 EmptyString] _
                (Answer 404 EmptyString) []
                eq_refl eq_refl eq_refl Hf eq_refl eq_refl)
      as (_ & H & _).
    rewrite (H EmptyString eq_refl). reflexivity.
Defined.

(** Scenario B on the text that the module itself writes, and the same
    for the device with a name outside ASCII: a PUT, run after run. *)
Lemma written_is_recognised_witness :
  main (A := scripted) (J := RefJson.json) Sample.wanted
    (start [Answer 200 Sample.document])
  = (inr (report Sample.wanted false), Sample.finish [] [Sample.GET]) /\
  main (A := scripted) (J := RefJson.json) Sample.umlaut
    (start [Answer 200
              (Device.to_json (J := RefJson.json)
                 (expected_device Sample.umlaut));
            Answer 204 EmptyString])
  = (inr (report Sample.umlaut true),
     Sample.finish []
       [request_of (J := RefJson.json) Sample.umlaut "GET";
        request_of (J := RefJson.json) Sample.umlaut "PUT"]).
Proof.
  split.
  - assert (Hl : loads (Json := RefJson.json)
                   (dumps (Json := RefJson.json)
                      (Device.payload (expected_device Sample.wanted)))
                 = inr (decoded
                          (Device.payload (expected_device Sample.wanted))))
      by (vm_compute; reflexivity).
    destruct (written_is_recognised (A := scripted) (J := RefJson.json)
                Sample.wanted (start [Answer 200 Sample.document]) 200 []
                eq_refl Hl eq_refl eq_refl) as (H & _).
    rewrite (H eq_refl). reflexivity.
  - assert (Hl : loads (Json := RefJson.json)
                   (dumps (Json := RefJson.json)
                      (Device.payload (expected_device Sample.umlaut)))
                 = inr (decoded
                          (Device.payload (expected_device Sample.umlaut))))
      by (vm_compute; reflexivity).
    destruct (written_is_recognised (A := scripted) (J := RefJson.json)
                Sample.umlaut
                (start [Answer 200
                          (Device.to_json (J := RefJson.json)
                             (expected_device Sample.umlaut));
                        Answer 204 EmptyString])
                200 [Answer 204 EmptyString]
                eq_refl Hl eq_refl eq_refl) as (_ & H).
    rewrite (H eq_refl). vm_compute. reflexivity.
Defined.

(** The same four values in another document, and another port. *)
Lemma reconciles_on_four_values_witness :
  main (A := scripted) (J := RefJson.json) Sample.wanted
    (start [Answer 200 (RefJson.write Sample.verbose)])
  = (inr (report Sample.wanted false), Sample.finish [] [Sample.GET]) /\
  main (A := scripted) (J := RefJson.json) Sample.wanted
    (start [Answer 200 Sample.moved; Answer 204 EmptyString])
  = (inr (report Sample.wanted true),
     Sample.finish [] [Sample.GET; Sample.PUT]).
Proof.
  split.
  - assert (Hl : loads (Json := RefJson.json) (RefJson.write Sample.verbose)
                 = inr Sample.verbose) by (vm_compute; reflexivity).
    assert (Hw : well_formed Sample.verbose (PUnicode "workstation23")
                   (PUnicode "192.168.0.100") (PInt 11112)
                   (PUnicode "HELLOWORLD")).
    { unfold well_formed. do 5 eexists.
      split; [reflexivity |]. split; [reflexivity |].
      split; [reflexivity |]. split; [reflexivity |].
      split; [reflexivity |]. split; reflexivity. }
    destruct (reconciles_on_four_values (A := scripted) (J := RefJson.json)
                Sample.wanted
                (start [Answer 200 (RefJson.write Sample.verbose)])
                200 (RefJson.write Sample.verbose) [] Sample.verbose
                "workstation23" "192.168.0.100" 11112 "HELLOWORLD"
                eq_refl eq_refl eq_refl Hl Hw) as (H & _).
    rewrite (H eq_refl eq_refl). reflexivity.
  - assert (Hl : loads (Json := RefJson.json) Sample.moved
                 = inr (decoded (Device.payload Sample.elsewhere)))
      by (vm_compute; reflexivity).
    assert (Hw : well_formed (decoded (Device.payload Sample.elsewhere))
                   (PUnicode "workstation23") (PUnicode "192.168.0.100")
                   (PInt 104) (PUnicode "HELLOWORLD")).
    { unfold well_formed. do 5 eexists.
      split; [reflexivity |]. split; [reflexivity |].
      split; [reflexivity |]. split; [reflexivity |].
      split; [reflexivity |]. split; reflexivity. }
    destruct (reconciles_on_four_values (A := scripted) (J := RefJson.json)
                Sample.wanted
                (start [Answer 200 Sample.moved; Answer 204 EmptyString])
                200 Sample.moved [Answer 204 EmptyString] _
                "workstation23" "192.168.0.100" 104 "HELLOWORLD"
                eq_refl eq_refl eq_refl Hl Hw) as (_ & H).
    assert (Hd : ("workstation23", "192.168.0.100", 104, "HELLOWORLD")
                 <> (name Sample.wanted, host Sample.wanted,
                     port Sample.wanted, aetitle Sample.wanted))
      by (intros E; discriminate E).
    rewrite (H (or_introl Hd)). reflexivity.
Defined.

(** The wanted device with its port as the string of its digits: the run
    sends a PUT all the same. *)
Lemma other_type_never_equal_witness :
  main (A := scripted) (J := RefJson.json) Sample.wanted
    (start [Answer 200 (RefJson.write Sample.quoted_port);
            Answer 204 EmptyString])
  = (inr (report Sample.wanted true),
     Sample.finish [] [Sample.GET; Sample.PUT]).
Proof.
  assert (Hl : loads (Json := RefJson.json)
                 (RefJson.write Sample.quoted_port)
               = inr Sample.quoted_port) by (vm_compute; reflexivity).
  assert (Hw : well_formed Sample.quoted_port (PUnicode "workstation23")
                 (PUnicode "192.168.0.100") (PUnicode "11112")
                 (PUnicode "HELLOWORLD")).
  { unfold well_formed. do 5 eexists.
    split; [reflexivity |]. split; [reflexivity |].
    split; [reflexivity |]. split; [reflexivity |].
    split; [reflexivity |]. split; reflexivity. }
  rewrite (other_type_never_equal (A := scripted) (J := RefJson.json)
             Sample.wanted
             (start [Answer 200 (RefJson.write Sample.quoted_port);
                     Answer 204 EmptyString])
             200 (RefJson.write Sample.quoted_port) [Answer 204 EmptyString]
             _ _ _ _ _ eq_refl eq_refl eq_refl Hl Hw eq_refl).
  reflexivity.
Defined.

(** Scenario A: the run that reports a change ends with its POST. *)
Lemma changed_means_written_witness :
  exists before req,
    [Sample.GET; Sample.POST] = ([] ++ before ++ [req])%list /\
    is_write req = true.
Proof.
  assert (Hm : main (A := scripted) (J := RefJson.json) Sample.wanted
                 (start [Answer 404 EmptyString; Answer 201 EmptyString])
               = (inr (report Sample.wanted true),
                  Sample.finish [] [Sample.GET; Sample.POST]))
    by (vm_compute; reflexivity).
  destruct (changed_means_written (A := scripted) (J := RefJson.json)
              Sample.wanted _ _ _ Hm) as (_ & _ & H).
  exact (H eq_refl).
Defined.

End MainMore.
